(** * Offline emergency-card cache (lib/offlineCache.ts)

    A shallow embedding of the IndexedDB-backed cache of the web client:
    [openDB], [cacheEmergencyData], [getCachedEmergencyData],
    [clearCachedEmergencyData] and [formatCacheTimestamp].

    The browser is modelled as explicit state: a wall clock, the contents
    of the IndexedDB database on disk, the module-level variable
    [dbPromise] and the console.  What the browser decides on its own
    (whether [window.indexedDB] exists, whether a request fires [onerror],
    how much time passes while an operation is suspended) is an input of
    each call, the [Host] record.  Executions are sequential: a promise is
    represented by the state it settles in. *)

From Stdlib Require Import ZArith NArith List String Ascii Bool Lia DecimalString.
Import ListNotations.

Local Open Scope string_scope.
Local Open Scope Z_scope.

(** ** JavaScript values, errors and promises *)

(** The payload has type [unknown] in the source.  Functions are kept as a
    constructor because they are the values the structured-clone algorithm
    of [IDBObjectStore.put] refuses. *)
#[warnings="-register-all"]
Inductive JSValue : Type :=
| JSUndefined
| JSNull
| JSBoolean (b : bool)
| JSNumber (n : Z)
| JSString (s : string)
| JSArray (items : list JSValue)
| JSObject (fields : list (string * JSValue))
| JSFunction (name : string).

(** Structured clone succeeds exactly on values without functions; the
    clone of such a value is structurally the value itself. *)
Fixpoint cloneable (v : JSValue) : bool :=
  match v with
  | JSArray items => forallb cloneable items
  | JSObject fields => forallb (fun f => cloneable (snd f)) fields
  | JSFunction _ => false
  | _ => true
  end.

Inductive JSError : Type :=
| Error (message : string)          (* new Error(message) *)
| DOMException (name : string).     (* request.error, or thrown by IndexedDB *)

(** The state a promise settles in; also the completion of synchronous
    code that may throw. *)
Inductive Settled (A : Type) : Type :=
| Fulfilled (value : A)
| Rejected (reason : JSError).
Arguments Fulfilled {A} value.
Arguments Rejected {A} reason.

(** ** The database on disk *)

Record CachedData : Type := {
  key : string;
  data : JSValue;
  timestamp : Z
}.

(** An object store created with [{ keyPath: 'key' }]: its records are
    identified by their [key] field. *)
Definition ObjectStore : Type := list CachedData.

Record IDBDisk : Type := {
  version : N;                                 (* 0: the database does not exist *)
  objectStores : list (string * ObjectStore)
}.

Record IDBDatabase : Type := {
  db_name : string;
  db_version : N
}.

Inductive IDBTransactionMode : Type := readonly | readwrite.

(** ** The browser *)

Record Host : Type := {
  window_defined : bool;               (* typeof window !== 'undefined' *)
  window_indexedDB : bool;             (* window.indexedDB is truthy *)
  open_onerror : option JSError;       (* indexedDB.open fires onerror *)
  transaction_throws : option JSError; (* db.transaction throws *)
  request_onerror : option JSError;    (* the put/get/delete request fires onerror *)
  open_latency : N;                    (* ms that pass while openDB is awaited *)
  request_latency : N                  (* ms that pass until the request's event *)
}.

Record World : Type := {
  clock : Z;                                   (* Date.now() *)
  disk : IDBDisk;
  dbPromise : option (Settled IDBDatabase);    (* let dbPromise = null *)
  console : list (string * JSError)            (* console.error lines *)
}.

Definition set_clock (t : Z) (w : World) : World :=
  {| clock := t; disk := disk w; dbPromise := dbPromise w; console := console w |}.

Definition set_disk (d : IDBDisk) (w : World) : World :=
  {| clock := clock w; disk := d; dbPromise := dbPromise w; console := console w |}.

Definition set_dbPromise (p : option (Settled IDBDatabase)) (w : World) : World :=
  {| clock := clock w; disk := disk w; dbPromise := p; console := console w |}.

Definition set_console (c : list (string * JSError)) (w : World) : World :=
  {| clock := clock w; disk := disk w; dbPromise := dbPromise w; console := c |}.

Definition elapse (ms : N) (w : World) : World :=
  set_clock (clock w + Z.of_N ms) w.

(** ** Asynchronous computations *)

Definition Async (A : Type) : Type := World -> Settled A * World.

Definition resolve {A : Type} (a : A) : Async A :=
  fun w => (Fulfilled a, w).

Definition reject {A : Type} (e : JSError) : Async A :=
  fun w => (Rejected e, w).

Definition bind {A B : Type} (m : Async A) (k : A -> Async B) : Async B :=
  fun w =>
    match m w with
    | (Fulfilled a, w') => k a w'
    | (Rejected e, w') => (Rejected e, w')
    end.

Declare Scope async_scope.
Delimit Scope async_scope with async.
Notation "x <- m ;; k" := (bind m (fun x => k))
  (at level 100, m at next level, right associativity) : async_scope.
Notation "m ;;; k" := (bind m (fun _ => k))
  (at level 100, right associativity) : async_scope.
Local Open Scope async_scope.

(** [await p]: the caller is suspended until [p] settles, and time passes. *)
Definition await {A : Type} (latency : N) (p : Async A) : Async A :=
  fun w => let (r, w') := p w in (r, elapse latency w').

(** [new Promise(executor)]: building a promise never throws.  A call of
    [reject] and an exception thrown by the executor both settle the new
    promise as rejected. *)
Definition new_Promise {A : Type} (executor : Async A) : Async (Settled A) :=
  fun w => let (r, w') := executor w in (Fulfilled r, w').

(** An async function whose body is
    [try { ...; return <promise>; } catch (err) { handler }].
    The outer completion of [body] tells whether the [try] block threw (a
    rejection of an awaited promise is such a throw); the inner one is the
    state of the promise the block returned.  That promise is returned
    without [await]: the promise of the async function adopts its state
    after the [try] block has been left, so the handler does not see it. *)
Definition try_catch {A : Type} (body : Async (Settled A))
    (handler : JSError -> Async A) : Async A :=
  fun w =>
    match body w with
    | (Fulfilled returned, w') => (returned, w')
    | (Rejected err, w') => handler err w'
    end.

Definition console_error (msg : string) (err : JSError) : Async unit :=
  fun w => (Fulfilled tt, set_console (console w ++ [(msg, err)]) w).

Definition Date_now : Async Z :=
  fun w => (Fulfilled (clock w), w).

(** ** IndexedDB *)

Fixpoint lookup_store (name : string) (stores : list (string * ObjectStore))
    : option ObjectStore :=
  match stores with
  | [] => None
  | (n, s) :: rest => if String.eqb n name then Some s else lookup_store name rest
  end.

Fixpoint replace_store (name : string) (s : ObjectStore)
    (stores : list (string * ObjectStore)) : list (string * ObjectStore) :=
  match stores with
  | [] => []
  | (n, s0) :: rest =>
      if String.eqb n name then (n, s) :: rest
      else (n, s0) :: replace_store name s rest
  end.

Definition objectStoreNames_contains (d : IDBDisk) (name : string) : bool :=
  match lookup_store name (objectStores d) with
  | Some _ => true
  | None => false
  end.

Definition createObjectStore (d : IDBDisk) (name : string) : IDBDisk :=
  {| version := version d; objectStores := (name, []) :: objectStores d |}.

(** The records of a store, and their replacement. *)
Definition records (name : string) (w : World) : ObjectStore :=
  match lookup_store name (objectStores (disk w)) with
  | Some s => s
  | None => []
  end.

Definition set_records (name : string) (s : ObjectStore) (w : World) : World :=
  set_disk {| version := version (disk w);
              objectStores := replace_store name s (objectStores (disk w)) |} w.

Definition has_key (k : string) (e : CachedData) : bool := String.eqb (key e) k.

(** [indexedDB.open(name, ver)] with the [onupgradeneeded] handler of the
    caller.  A database stored with a higher version is refused; a lower
    one (or none) runs the upgrade before [onsuccess]. *)
Definition indexedDB_open (h : Host) (name : string) (ver : N)
    (onupgradeneeded : IDBDisk -> IDBDisk) : Async IDBDatabase :=
  fun w =>
    match open_onerror h with
    | Some e => (Rejected e, w)
    | None =>
        if (ver <? version (disk w))%N then (Rejected (DOMException "VersionError"), w)
        else if (version (disk w) <? ver)%N then
          let d := onupgradeneeded (disk w) in
          (Fulfilled {| db_name := name; db_version := ver |},
           set_disk {| version := ver; objectStores := objectStores d |} w)
        else (Fulfilled {| db_name := name; db_version := ver |}, w)
    end.

(** [db.transaction(storeName, mode)] followed by [tx.objectStore(storeName)]:
    yields the name of the store the requests will address. *)
Definition db_transaction (h : Host) (db : IDBDatabase) (storeName : string)
    (mode : IDBTransactionMode) : Async string :=
  fun w =>
    match transaction_throws h with
    | Some e => (Rejected e, w)
    | None =>
        if objectStoreNames_contains (disk w) storeName then (Fulfilled storeName, w)
        else (Rejected (DOMException "NotFoundError"), w)
    end.

(** The event of a request: [onerror] with the host's error, else
    [onsuccess] with the effect and result of the request. *)
Definition request_event {A : Type} (h : Host) (onsuccess : Async A) : Async A :=
  fun w =>
    let w' := elapse (request_latency h) w in
    match request_onerror h with
    | Some e => (Rejected e, w')
    | None => onsuccess w'
    end.

(** [store.put(entry)]: refuses a value that cannot be cloned, else replaces
    the record that has the key of [entry]. *)
Definition store_put (h : Host) (store : string) (entry : CachedData) : Async unit :=
  fun w =>
    if cloneable (data entry) then
      request_event h
        (fun w' =>
           (Fulfilled tt,
            set_records store
              (entry :: filter (fun e => negb (has_key (key entry) e)) (records store w'))
              w')) w
    else (Rejected (DOMException "DataCloneError"), w).

(** [store.get(key)]: the record, or [undefined]. *)
Definition store_get (h : Host) (store : string) (k : string)
    : Async (option CachedData) :=
  request_event h (fun w' => (Fulfilled (find (has_key k) (records store w')), w')).

(** [store.delete(key)] *)
Definition store_delete (h : Host) (store : string) (k : string) : Async unit :=
  request_event h
    (fun w' =>
       (Fulfilled tt,
        set_records store (filter (fun e => negb (has_key k e)) (records store w')) w')).

(** ** The module *)

Definition DB_NAME : string := "PolicyVaultOffline".
Definition DB_VERSION : N := 1.
Definition STORE_NAME : string := "emergency".

Definition onupgradeneeded (d : IDBDisk) : IDBDisk :=
  if negb (objectStoreNames_contains d STORE_NAME)
  then createObjectStore d STORE_NAME
  else d.

Definition openDB (h : Host) : Async IDBDatabase :=
  fun w =>
    match dbPromise w with
    | Some p => (p, w)                                   (* if (dbPromise) return dbPromise *)
    | None =>
        let (p, w') :=
          (if negb (window_defined h) || negb (window_indexedDB h)
           then reject (Error "IndexedDB not available")
           else indexedDB_open h DB_NAME DB_VERSION onupgradeneeded) w in
        (p, set_dbPromise (Some p) w')
    end.

Definition cacheEmergencyData (h : Host) (key : string) (data : JSValue)
    : Async unit :=
  try_catch
    (db <- await (open_latency h) (openDB h) ;;
     new_Promise
       (store <- db_transaction h db STORE_NAME readwrite ;;
        now <- Date_now ;;
        store_put h store {| key := key; data := data; timestamp := now |}))
    (fun err => console_error "Failed to cache emergency data:" err).

(** The value [{ data, timestamp }] of a hit; [null] is [None]. *)
Definition getCachedEmergencyData (h : Host) (key : string)
    : Async (option (JSValue * Z)) :=
  try_catch
    (db <- await (open_latency h) (openDB h) ;;
     new_Promise
       (store <- db_transaction h db STORE_NAME readonly ;;
        result <- store_get h store key ;;
        match result with
        | Some r => resolve (Some (data r, timestamp r))
        | None => resolve None
        end))
    (fun err =>
       console_error "Failed to get cached emergency data:" err ;;;
       resolve None).

Definition clearCachedEmergencyData (h : Host) (key : string) : Async unit :=
  try_catch
    (db <- await (open_latency h) (openDB h) ;;
     new_Promise
       (store <- db_transaction h db STORE_NAME readwrite ;;
        store_delete h store key))
    (fun err => console_error "Failed to clear cached emergency data:" err).

(** [String(n)] for an integer [n]. *)
Definition Number_toString (n : Z) : string :=
  NilZero.string_of_int (Z.to_int n).

Section FormatCacheTimestamp.

(** [new Date(timestamp).toLocaleDateString()] depends on the locale of
    the browser. *)
Variable toLocaleDateString : Z -> string.

(** [now] is [new Date().getTime()].  On integers [Math.floor (a / b)]
    is the floor division [a / b] of [Z]. *)
Definition formatCacheTimestamp (now timestamp : Z) : string :=
  let diffMs := now - timestamp in
  let diffMins := diffMs / 60000 in
  let diffHours := diffMs / 3600000 in
  let diffDays := diffMs / 86400000 in
  if diffMins <? 1 then "Just now"
  else if diffMins <? 60 then
    Number_toString diffMins ++ " minute" ++ (if diffMins =? 1 then "" else "s") ++ " ago"
  else if diffHours <? 24 then
    Number_toString diffHours ++ " hour" ++ (if diffHours =? 1 then "" else "s") ++ " ago"
  else if diffDays <? 7 then
    Number_toString diffDays ++ " day" ++ (if diffDays =? 1 then "" else "s") ++ " ago"
  else toLocaleDateString timestamp.

End FormatCacheTimestamp.

(** ** Sequential executions *)

Inductive Op : Type :=
| Put (k : string) (p : JSValue)
| Get (k : string)
| Delete (k : string).

Definition step (c : Host * Op) (w : World) : World :=
  match c with
  | (h, Put k p) => snd (cacheEmergencyData h k p w)
  | (h, Get k) => snd (getCachedEmergencyData h k w)
  | (h, Delete k) => snd (clearCachedEmergencyData h k w)
  end.

Fixpoint run (calls : list (Host * Op)) (w : World) : World :=
  match calls with
  | [] => w
  | c :: rest => run rest (step c w)
  end.

Definition writes_key (k : string) (c : Host * Op) : bool :=
  match snd c with
  | Put k' _ => String.eqb k' k
  | _ => false
  end.

(** A page load: no database yet, nothing memoized. *)
Definition fresh_world (t : Z) : World :=
  {| clock := t;
     disk := {| version := 0; objectStores := [] |};
     dbPromise := None;
     console := [] |}.

(** A browser in which nothing goes wrong. *)
Definition browser (open_ms request_ms : N) : Host :=
  {| window_defined := true;
     window_indexedDB := true;
     open_onerror := None;
     transaction_throws := None;
     request_onerror := None;
     open_latency := open_ms;
     request_latency := request_ms |}.

(** The transaction and the request of the call meet no failure. *)
Definition no_fault (h : Host) : Prop :=
  transaction_throws h = None /\ request_onerror h = None.

(** The records of the store have pairwise different keys. *)
Definition unique_keys (s : ObjectStore) : Prop := NoDup (map key s).

(** The database can be opened, or is open already, and holds the
    [emergency] object store. *)
Definition available (h : Host) (w : World) : Prop :=
  (exists db, fst (openDB h w) = Fulfilled db) /\
  objectStoreNames_contains (disk (snd (openDB h w))) STORE_NAME = true.

(** The module holds a connection to a database that has the store. *)
Definition connected (w : World) : Prop :=
  (exists db, dbPromise w = Some (Fulfilled db)) /\
  objectStoreNames_contains (disk w) STORE_NAME = true.

(** The error a caller of an async function observes, if any. *)
Definition rejection {A : Type} (r : Settled A) : option JSError :=
  match r with
  | Fulfilled _ => None
  | Rejected e => Some e
  end.

(** Concrete data: an emergency card, a server-side rendering context
    (no [window]), a browser whose storage quota is exhausted, one whose
    connection is closing, and one that refuses to open the database. *)
Definition card : JSValue :=
  JSObject [("holder_name", JSString "A. Holder");
            ("requires_pin", JSBoolean false)].

Definition server_side : Host :=
  {| window_defined := false;
     window_indexedDB := false;
     open_onerror := None;
     transaction_throws := None;
     request_onerror := None;
     open_latency := 1;
     request_latency := 1 |}.

Definition quota_exceeded : Host :=
  {| window_defined := true;
     window_indexedDB := true;
     open_onerror := None;
     transaction_throws := None;
     request_onerror := Some (DOMException "QuotaExceededError");
     open_latency := 1;
     request_latency := 1 |}.

Definition connection_closing : Host :=
  {| window_defined := true;
     window_indexedDB := true;
     open_onerror := None;
     transaction_throws := Some (DOMException "InvalidStateError");
     request_onerror := None;
     open_latency := 1;
     request_latency := 1 |}.

Definition open_refused : Host :=
  {| window_defined := true;
     window_indexedDB := true;
     open_onerror := Some (DOMException "UnknownError");
     transaction_throws := None;
     request_onerror := None;
     open_latency := 1;
     request_latency := 1 |}.

(** A later visit: the card of an earlier session is on disk. *)
Definition returning_world (t : Z) : World :=
  {| clock := t;
     disk := {| version := 1;
                objectStores :=
                  [(STORE_NAME,
                    [{| key := "ice_card_ABC123"; data := card; timestamp := t - 5000 |}])] |};
     dbPromise := None;
     console := [] |}.

(** The key a call addresses, whether it may change the entry of a key,
    and the line it logs when the database cannot be opened. *)
Definition key_of (o : Op) : string :=
  match o with
  | Put k _ => k
  | Get k => k
  | Delete k => k
  end.

Definition touches_key (k : string) (c : Host * Op) : bool :=
  match snd c with
  | Put k' _ => String.eqb k' k
  | Get _ => false
  | Delete k' => String.eqb k' k
  end.

Definition log_message (o : Op) : string :=
  match o with
  | Put _ _ => "Failed to cache emergency data:"
  | Get _ => "Failed to get cached emergency data:"
  | Delete _ => "Failed to clear cached emergency data:"
  end.

(** The error the caller of a call observes, if any. *)
Definition failure (c : Host * Op) (w : World) : option JSError :=
  match c with
  | (h, Put k p) => rejection (fst (cacheEmergencyData h k p w))
  | (h, Get k) => rejection (fst (getCachedEmergencyData h k w))
  | (h, Delete k) => rejection (fst (clearCachedEmergencyData h k w))
  end.

(** The host has IndexedDB and does not refuse to open the database. *)
Definition opens (h : Host) : Prop :=
  window_defined h = true /\ window_indexedDB h = true /\ open_onerror h = None.

(** The module is connected to the database in the version it asks for. *)
Definition ready (w : World) : Prop :=
  connected w /\ version (disk w) = DB_VERSION.

(** A page reload: the module is evaluated again ([dbPromise] is [null],
    the console is empty); the database on disk and the clock stay. *)
Definition reload (w : World) : World :=
  set_console [] (set_dbPromise None w).

(** ** The emergency-card page (the caller of the cache) *)

(** [Boolean(v)] *)
Definition truthy (v : JSValue) : bool :=
  match v with
  | JSUndefined | JSNull => false
  | JSBoolean b => b
  | JSNumber n => negb (n =? 0)
  | JSString s => negb (String.eqb s "")
  | JSArray _ | JSObject _ | JSFunction _ => true
  end.

(** [o.name] for an object given by its own properties. *)
Fixpoint own_property (name : string) (fields : list (string * JSValue)) : JSValue :=
  match fields with
  | [] => JSUndefined
  | (n, v) :: rest => if String.eqb n name then v else own_property name rest
  end.

(** [v.name] for a name that no prototype defines ([requires_pin],
    [holder_name]): [None] is the [TypeError] of reading a property of
    [null] or [undefined]. *)
Definition property (name : string) (v : JSValue) : option JSValue :=
  match v with
  | JSUndefined | JSNull => None
  | JSObject fields => Some (own_property name fields)
  | JSBoolean _ | JSNumber _ | JSString _ | JSArray _ | JSFunction _ => Some JSUndefined
  end.

(** The type [EmergencyCardPublic] of the answers of [iceApi]: an object,
    given by its properties. *)
Definition EmergencyCardPublic : Type := list (string * JSValue).

(** One call of [iceApi]: how it settles and how long it takes. *)
Record Network : Type := {
  response : Settled EmergencyCardPublic;
  fetch_latency : N
}.

(** The [useState] cells the handlers below write. *)
Record PageState : Type := {
  loading : bool;
  error : string;
  requiresPin : bool;
  holderName : JSValue;
  cardData : JSValue;
  isOnline : bool;
  isUsingCache : bool;
  cacheTimestamp : option Z
}.

Definition initial_state : PageState :=
  {| loading := true; error := ""; requiresPin := false;
     holderName := JSString ""; cardData := JSNull; isOnline := true;
     isUsingCache := false; cacheTimestamp := None |}.

Definition setLoading (b : bool) (s : PageState) : PageState :=
  {| loading := b; error := error s; requiresPin := requiresPin s;
     holderName := holderName s; cardData := cardData s; isOnline := isOnline s;
     isUsingCache := isUsingCache s; cacheTimestamp := cacheTimestamp s |}.

Definition setError (e : string) (s : PageState) : PageState :=
  {| loading := loading s; error := e; requiresPin := requiresPin s;
     holderName := holderName s; cardData := cardData s; isOnline := isOnline s;
     isUsingCache := isUsingCache s; cacheTimestamp := cacheTimestamp s |}.

Definition setRequiresPin (b : bool) (s : PageState) : PageState :=
  {| loading := loading s; error := error s; requiresPin := b;
     holderName := holderName s; cardData := cardData s; isOnline := isOnline s;
     isUsingCache := isUsingCache s; cacheTimestamp := cacheTimestamp s |}.

Definition setHolderName (v : JSValue) (s : PageState) : PageState :=
  {| loading := loading s; error := error s; requiresPin := requiresPin s;
     holderName := v; cardData := cardData s; isOnline := isOnline s;
     isUsingCache := isUsingCache s; cacheTimestamp := cacheTimestamp s |}.

Definition setCardData (v : JSValue) (s : PageState) : PageState :=
  {| loading := loading s; error := error s; requiresPin := requiresPin s;
     holderName := holderName s; cardData := v; isOnline := isOnline s;
     isUsingCache := isUsingCache s; cacheTimestamp := cacheTimestamp s |}.

Definition setIsUsingCache (b : bool) (s : PageState) : PageState :=
  {| loading := loading s; error := error s; requiresPin := requiresPin s;
     holderName := holderName s; cardData := cardData s; isOnline := isOnline s;
     isUsingCache := b; cacheTimestamp := cacheTimestamp s |}.

Definition setCacheTimestamp (t : option Z) (s : PageState) : PageState :=
  {| loading := loading s; error := error s; requiresPin := requiresPin s;
     holderName := holderName s; cardData := cardData s; isOnline := isOnline s;
     isUsingCache := isUsingCache s; cacheTimestamp := t |}.

(** [a || b] on strings *)
Definition or_else (a b : string) : string :=
  if String.eqb a "" then b else a.

(** What the page shows: which [return] of the component is taken, and the
    offline banner of the card view. *)
Inductive UpdatedLine : Type :=
| NoLine                           (* cacheTimestamp is null *)
| BareZero                         (* cacheTimestamp is 0: React prints the 0 *)
| LastUpdated (age : string).      (* "Last updated: " and the age *)

Record Banner : Type := {
  banner_title : string;
  banner_updated : UpdatedLine
}.

Inductive Screen : Type :=
| LoadingScreen
| CardNotFound (message : string)
| PinEntry (holder : JSValue) (complaint : option string)
| CardView (card : JSValue) (banner : option Banner).

Section EmergencyCardPage.

(** The message of a [DOMException], which the browser words. *)
Variable dom_message : string -> string.

Variable toLocaleDateString : Z -> string.

(** [err.message] *)
Definition message (err : JSError) : string :=
  match err with
  | Error m => m
  | DOMException name => dom_message name
  end.

(** The [catch (err)] block of [loadCard]: the cache is read in host [hr];
    a [TypeError] of [cached.data.requires_pin] and a rejected read end in
    the inner [catch]. *)
Definition loadCard_catch (hr : Host) (cacheKey : string) (err : JSError)
    (sw : PageState * World) : PageState * World :=
  let complain := setError (or_else (message err) "Emergency card not found") in
  let (cached, w3) := getCachedEmergencyData hr cacheKey (snd sw) in
  match cached with
  | Fulfilled (Some (d, t)) =>
      match property "requires_pin" d with
      | Some pin_flag =>
          if negb (truthy pin_flag) then
            (setError ""
               (setIsUsingCache true
                  (setCacheTimestamp (Some t) (setCardData d (fst sw)))), w3)
          else (complain (fst sw), w3)
      | None => (complain (fst sw), w3)
      end
  | Fulfilled None => (complain (fst sw), w3)
  | Rejected _ => (complain (fst sw), w3)
  end.

(** [loadCard]: [net] is the call of [iceApi.getPublic]; [hw] and [hr] are
    the hosts of the cache write and of the cache read, whichever happens. *)
Definition loadCard (net : Network) (hw hr : Host) (accessCode : string)
    (sw : PageState * World) : PageState * World :=
  let cacheKey := "ice_card_" ++ accessCode in
  let s1 := setError "" (setLoading true (fst sw)) in
  let w1 := elapse (fetch_latency net) (snd sw) in
  let attempt : Settled unit * (PageState * World) :=
    match response net with
    | Rejected err => (Rejected err, (s1, w1))
    | Fulfilled data =>
        if truthy (own_property "requires_pin" data) then
          (Fulfilled tt,
           (setHolderName (own_property "holder_name" data) (setRequiresPin true s1), w1))
        else
          let s2 := setIsUsingCache false (setCardData (JSObject data) s1) in
          let (r, w2) := cacheEmergencyData hw cacheKey (JSObject data) w1 in
          (r, (s2, w2))
    end in
  let after : PageState * World :=
    match attempt with
    | (Fulfilled _, reached) => reached
    | (Rejected err, reached) => loadCard_catch hr cacheKey err reached
    end in
  (setLoading false (fst after), snd after).

(** [handlePinSubmit]: [net] is the call of [iceApi.verifyPin]. *)
Definition handlePinSubmit (net : Network) (hw : Host) (accessCode : string)
    (sw : PageState * World) : PageState * World :=
  let cacheKey := "ice_card_" ++ accessCode in
  let s1 := setError "" (setLoading true (fst sw)) in
  let w1 := elapse (fetch_latency net) (snd sw) in
  let attempt : Settled unit * (PageState * World) :=
    match response net with
    | Rejected err => (Rejected err, (s1, w1))
    | Fulfilled data =>
        let s2 :=
          setIsUsingCache false
            (setRequiresPin false (setCardData (JSObject data) s1)) in
        let (r, w2) := cacheEmergencyData hw cacheKey (JSObject data) w1 in
        (r, (s2, w2))
    end in
  let after : PageState * World :=
    match attempt with
    | (Fulfilled _, reached) => reached
    | (Rejected err, (s2, w2)) =>
        (setError (or_else (message err) "Incorrect PIN") s2, w2)
    end in
  (setLoading false (fst after), snd after).

(** The component's [return]s, in their order; [now] is the time of the
    render. *)
Definition screen (now : Z) (s : PageState) : Screen :=
  if loading s then LoadingScreen
  else if negb (String.eqb (error s) "") && negb (requiresPin s) then
    CardNotFound (error s)
  else if requiresPin s && negb (truthy (cardData s)) then
    PinEntry (holderName s)
      (if String.eqb (error s) "" then None else Some (error s))
  else
    CardView (cardData s)
      (if negb (isOnline s) || isUsingCache s then
         Some {| banner_title :=
                   if negb (isOnline s) then "You are offline"
                   else "Viewing cached data";
                 banner_updated :=
                   match cacheTimestamp s with
                   | None => NoLine
                   | Some t =>
                       if t =? 0 then BareZero
                       else LastUpdated (formatCacheTimestamp toLocaleDateString now t)
                   end |}
       else None).

End EmergencyCardPage.

(** [formatPhone]: [phone.replace(/[^\d+]/g, '')] drops every character
    that is neither a digit nor a plus sign. *)
Definition is_digit (c : ascii) : bool :=
  (48 <=? nat_of_ascii c)%nat && (nat_of_ascii c <=? 57)%nat.

Definition dialable (c : ascii) : bool :=
  is_digit c || Ascii.eqb c "+"%char.

Fixpoint formatPhone (phone : string) : string :=
  match phone with
  | EmptyString => EmptyString
  | String c rest =>
      if dialable c then String c (formatPhone rest) else formatPhone rest
  end.

Fixpoint all_chars (f : ascii -> bool) (s : string) : bool :=
  match s with
  | EmptyString => true
  | String c rest => f c && all_chars f rest
  end.

(** The state in which a call continues once [await openDB()] is over. *)
Definition opened (h : Host) : Async IDBDatabase :=
  await (open_latency h) (openDB h).

(** * Properties *)

(** ** Object stores *)

Lemma lookup_replace_store name s stores :
  lookup_store name (replace_store name s stores) =
  match lookup_store name stores with
  | Some _ => Some s
  | None => None
  end.
Proof.
  induction stores as [|[n s0] rest IH]; simpl; [reflexivity|].
  destruct (String.eqb n name) eqn:E; simpl; rewrite E; [reflexivity | exact IH].
Qed.

Lemma contains_set_records name s w :
  objectStoreNames_contains (disk (set_records name s w)) name =
  objectStoreNames_contains (disk w) name.
Proof.
  unfold objectStoreNames_contains, set_records; simpl.
  rewrite lookup_replace_store.
  destruct (lookup_store name (objectStores (disk w))); reflexivity.
Qed.

Lemma records_set_records name s w :
  objectStoreNames_contains (disk w) name = true ->
  records name (set_records name s w) = s.
Proof.
  unfold objectStoreNames_contains, records, set_records; simpl.
  rewrite lookup_replace_store.
  destruct (lookup_store name (objectStores (disk w))); [reflexivity | discriminate].
Qed.

Lemma find_filter_same k (s : ObjectStore) :
  find (has_key k) (filter (fun e => negb (has_key k e)) s) = None.
Proof.
  induction s as [|e s IH]; simpl; [reflexivity|].
  destruct (has_key k e) eqn:E; simpl; [exact IH | rewrite E; exact IH].
Qed.

Lemma find_filter_other k k' (s : ObjectStore) :
  k' <> k ->
  find (has_key k') (filter (fun e => negb (has_key k e)) s) = find (has_key k') s.
Proof.
  intros Hne. induction s as [|e s IH]; simpl; [reflexivity|].
  destruct (has_key k e) eqn:E; simpl.
  - destruct (has_key k' e) eqn:E'; [|exact IH].
    unfold has_key in E, E'. apply String.eqb_eq in E, E'. congruence.
  - destruct (has_key k' e); [reflexivity | exact IH].
Qed.

Lemma filter_absent k (s : ObjectStore) :
  find (has_key k) s = None ->
  filter (fun e => negb (has_key k e)) s = s.
Proof.
  induction s as [|e s IH]; simpl; [reflexivity|].
  destruct (has_key k e); simpl; [discriminate|].
  intros H. now rewrite IH.
Qed.

Lemma filter_same_nil k (s : ObjectStore) :
  filter (has_key k) (filter (fun e => negb (has_key k e)) s) = [].
Proof.
  induction s as [|e s IH]; simpl; [reflexivity|].
  destruct (has_key k e) eqn:E; simpl; [exact IH | rewrite E; exact IH].
Qed.

Lemma keys_filter_incl (f : CachedData -> bool) (s : ObjectStore) x :
  In x (map key (filter f s)) -> In x (map key s).
Proof.
  rewrite !in_map_iff. intros [e [He Hin]]. apply filter_In in Hin.
  exists e. tauto.
Qed.

Lemma unique_keys_filter (f : CachedData -> bool) (s : ObjectStore) :
  unique_keys s -> unique_keys (filter f s).
Proof.
  unfold unique_keys. induction s as [|e s IH]; simpl; intros H; [exact H|].
  inversion H as [|x l Hnotin Hnd]; subst.
  destruct (f e); simpl; [constructor|]; auto.
  intros Hin. apply Hnotin. eapply keys_filter_incl; eassumption.
Qed.

Lemma unique_keys_put (e : CachedData) (s : ObjectStore) :
  unique_keys s ->
  unique_keys (e :: filter (fun x => negb (has_key (key e) x)) s).
Proof.
  intros H. unfold unique_keys; simpl. constructor.
  - rewrite in_map_iff. intros [x [Hk Hin]]. apply filter_In in Hin.
    destruct Hin as [_ Hneg]. unfold has_key in Hneg.
    rewrite Hk, String.eqb_refl in Hneg. discriminate.
  - now apply unique_keys_filter.
Qed.

(** ** Opening the database *)

Lemma openDB_memoized h w p :
  dbPromise w = Some p -> openDB h w = (p, w).
Proof. intros H. unfold openDB. now rewrite H. Qed.

Lemma records_onupgradeneeded v w :
  records STORE_NAME
    (set_disk {| version := v;
                 objectStores := objectStores (onupgradeneeded (disk w)) |} w) =
  records STORE_NAME w.
Proof.
  unfold records, onupgradeneeded, objectStoreNames_contains; simpl.
  destruct (lookup_store STORE_NAME (objectStores (disk w))) eqn:E; simpl.
  - now rewrite E.
  - reflexivity.
Qed.

Lemma contains_onupgradeneeded v d :
  objectStoreNames_contains
    {| version := v; objectStores := objectStores (onupgradeneeded d) |}
    STORE_NAME = true.
Proof.
  unfold onupgradeneeded, objectStoreNames_contains; simpl.
  destruct (lookup_store STORE_NAME (objectStores d)) eqn:E; simpl.
  - now rewrite E.
  - reflexivity.
Qed.

Lemma openDB_facts h w :
  clock (snd (openDB h w)) = clock w /\
  console (snd (openDB h w)) = console w /\
  dbPromise (snd (openDB h w)) = Some (fst (openDB h w)) /\
  records STORE_NAME (snd (openDB h w)) = records STORE_NAME w /\
  (objectStoreNames_contains (disk w) STORE_NAME = true ->
   objectStoreNames_contains (disk (snd (openDB h w))) STORE_NAME = true).
Proof.
  unfold openDB.
  destruct (dbPromise w) as [p|] eqn:Hp; simpl; [now rewrite Hp|].
  destruct (negb (window_defined h) || negb (window_indexedDB h)); simpl;
    [repeat split; auto|].
  unfold indexedDB_open.
  destruct (open_onerror h); simpl; [repeat split; auto|].
  destruct (DB_VERSION <? version (disk w))%N; simpl; [repeat split; auto|].
  destruct (version (disk w) <? DB_VERSION)%N; simpl; [|repeat split; auto].
  repeat split; auto.
  - apply records_onupgradeneeded.
  - intros _. apply contains_onupgradeneeded.
Qed.

Lemma opened_eq h w :
  opened h w = (fst (openDB h w), elapse (open_latency h) (snd (openDB h w))).
Proof. unfold opened, await. now destruct (openDB h w). Qed.

Lemma opened_facts h w :
  clock (snd (opened h w)) = clock w + Z.of_N (open_latency h) /\
  console (snd (opened h w)) = console w /\
  dbPromise (snd (opened h w)) = Some (fst (opened h w)) /\
  records STORE_NAME (snd (opened h w)) = records STORE_NAME w /\
  (objectStoreNames_contains (disk w) STORE_NAME = true ->
   objectStoreNames_contains (disk (snd (opened h w))) STORE_NAME = true) /\
  fst (opened h w) = fst (openDB h w).
Proof.
  rewrite opened_eq; simpl.
  destruct (openDB_facts h w) as (Hc & Hl & Hp & Hr & Hs).
  unfold records in *; simpl. rewrite Hc. repeat split; auto.
Qed.

(** ** The three operations, call by call *)

Lemma cacheEmergencyData_eq h k p w :
  cacheEmergencyData h k p w =
  match opened h w with
  | (Rejected err, w1) => console_error "Failed to cache emergency data:" err w1
  | (Fulfilled _, w1) =>
      match transaction_throws h with
      | Some e => (Rejected e, w1)
      | None =>
          if objectStoreNames_contains (disk w1) STORE_NAME then
            if cloneable p then
              match request_onerror h with
              | Some e => (Rejected e, elapse (request_latency h) w1)
              | None =>
                  (Fulfilled tt,
                   set_records STORE_NAME
                     ({| key := k; data := p; timestamp := clock w1 |}
                        :: filter (fun e => negb (has_key k e)) (records STORE_NAME w1))
                     (elapse (request_latency h) w1))
              end
            else (Rejected (DOMException "DataCloneError"), w1)
          else (Rejected (DOMException "NotFoundError"), w1)
      end
  end.
Proof.
  unfold cacheEmergencyData, try_catch, bind. fold (opened h).
  destruct (opened h w) as [[db|err] w1]; [|reflexivity].
  unfold new_Promise, bind, db_transaction, Date_now, store_put, request_event.
  destruct (transaction_throws h); [reflexivity|].
  destruct (objectStoreNames_contains (disk w1) STORE_NAME); [|reflexivity].
  simpl. destruct (cloneable p); [|reflexivity].
  destruct (request_onerror h); reflexivity.
Qed.

Lemma getCachedEmergencyData_eq h k w :
  getCachedEmergencyData h k w =
  match opened h w with
  | (Rejected err, w1) =>
      (Fulfilled None,
       set_console (console w1 ++ [("Failed to get cached emergency data:", err)]) w1)
  | (Fulfilled _, w1) =>
      match transaction_throws h with
      | Some e => (Rejected e, w1)
      | None =>
          if objectStoreNames_contains (disk w1) STORE_NAME then
            match request_onerror h with
            | Some e => (Rejected e, elapse (request_latency h) w1)
            | None =>
                (Fulfilled
                   (match find (has_key k) (records STORE_NAME w1) with
                    | Some r => Some (data r, timestamp r)
                    | None => None
                    end),
                 elapse (request_latency h) w1)
            end
          else (Rejected (DOMException "NotFoundError"), w1)
      end
  end.
Proof.
  unfold getCachedEmergencyData, try_catch, bind. fold (opened h).
  destruct (opened h w) as [[db|err] w1]; [|reflexivity].
  unfold new_Promise, bind, db_transaction, store_get, request_event.
  destruct (transaction_throws h); [reflexivity|].
  destruct (objectStoreNames_contains (disk w1) STORE_NAME); [|reflexivity].
  destruct (request_onerror h); [reflexivity|].
  change (records STORE_NAME (elapse (request_latency h) w1))
    with (records STORE_NAME w1).
  destruct (find (has_key k) (records STORE_NAME w1)); reflexivity.
Qed.

Lemma clearCachedEmergencyData_eq h k w :
  clearCachedEmergencyData h k w =
  match opened h w with
  | (Rejected err, w1) =>
      console_error "Failed to clear cached emergency data:" err w1
  | (Fulfilled _, w1) =>
      match transaction_throws h with
      | Some e => (Rejected e, w1)
      | None =>
          if objectStoreNames_contains (disk w1) STORE_NAME then
            match request_onerror h with
            | Some e => (Rejected e, elapse (request_latency h) w1)
            | None =>
                (Fulfilled tt,
                 set_records STORE_NAME
                   (filter (fun e => negb (has_key k e)) (records STORE_NAME w1))
                   (elapse (request_latency h) w1))
            end
          else (Rejected (DOMException "NotFoundError"), w1)
      end
  end.
Proof.
  unfold clearCachedEmergencyData, try_catch, bind. fold (opened h).
  destruct (opened h w) as [[db|err] w1]; [|reflexivity].
  unfold new_Promise, bind, db_transaction, store_delete, request_event.
  destruct (transaction_throws h); [reflexivity|].
  destruct (objectStoreNames_contains (disk w1) STORE_NAME); [|reflexivity].
  destruct (request_onerror h); reflexivity.
Qed.

(** ** One call, whatever the host does *)

Ltac open_call h w :=
  let Hc := fresh "Hclock" in
  let Hl := fresh "Hconsole" in
  let Hp := fresh "Hpromise" in
  let Hr := fresh "Hrecords" in
  let Hs := fresh "Hstore" in
  let Ho := fresh "Hopen" in
  let w1 := fresh "w1" in
  destruct (opened_facts h w) as (Hc & Hl & Hp & Hr & Hs & Ho);
  destruct (opened h w) as [[?db|?err] w1]; simpl in Hc, Hl, Hp, Hr, Hs, Ho.

Ltac close_facts Hopen Hstore :=
  unfold console_error; simpl;
  rewrite <- Hopen; repeat split; auto; try lia;
  try (let H := fresh in intros H; apply Hstore in H; discriminate).

Lemma step_facts h o w :
  dbPromise (step (h, o) w) = Some (fst (openDB h w)) /\
  clock w <= clock (step (h, o) w) /\
  (objectStoreNames_contains (disk w) STORE_NAME = true ->
   objectStoreNames_contains (disk (step (h, o) w)) STORE_NAME = true) /\
  (records STORE_NAME (step (h, o) w) = records STORE_NAME w \/
   (exists k p t,
       o = Put k p /\ clock w <= t <= clock (step (h, o) w) /\
       records STORE_NAME (step (h, o) w) =
       {| key := k; data := p; timestamp := t |}
         :: filter (fun e => negb (has_key k e)) (records STORE_NAME w)) \/
   (exists k,
       o = Delete k /\
       records STORE_NAME (step (h, o) w) =
       filter (fun e => negb (has_key k e)) (records STORE_NAME w))).
Proof.
  destruct o as [k p|k|k]; simpl step.
  - rewrite cacheEmergencyData_eq. open_call h w; [|close_facts Hopen Hstore].
    destruct (transaction_throws h); simpl; [close_facts Hopen Hstore|].
    destruct (objectStoreNames_contains (disk w1) STORE_NAME) eqn:Hc1; simpl;
      [|close_facts Hopen Hstore].
    destruct (cloneable p); simpl; [|close_facts Hopen Hstore].
    destruct (request_onerror h); simpl; [close_facts Hopen Hstore|].
    rewrite <- Hopen. repeat split; auto; try lia.
    + intros _.
      apply (eq_trans (contains_set_records STORE_NAME _
                         (elapse (request_latency h) w1))).
      exact Hc1.
    + right; left. exists k, p, (clock w1). split; [reflexivity|].
      split; [simpl; lia|].
      rewrite <- Hrecords.
      apply (records_set_records STORE_NAME _ (elapse (request_latency h) w1)).
      exact Hc1.
  - rewrite getCachedEmergencyData_eq. open_call h w; [|close_facts Hopen Hstore].
    destruct (transaction_throws h); simpl; [close_facts Hopen Hstore|].
    destruct (objectStoreNames_contains (disk w1) STORE_NAME) eqn:Hc1; simpl;
      [|close_facts Hopen Hstore].
    destruct (request_onerror h); simpl; close_facts Hopen Hstore.
  - rewrite clearCachedEmergencyData_eq. open_call h w; [|close_facts Hopen Hstore].
    destruct (transaction_throws h); simpl; [close_facts Hopen Hstore|].
    destruct (objectStoreNames_contains (disk w1) STORE_NAME) eqn:Hc1; simpl;
      [|close_facts Hopen Hstore].
    destruct (request_onerror h); simpl; [close_facts Hopen Hstore|].
    rewrite <- Hopen. repeat split; auto; try lia.
    + intros _.
      apply (eq_trans (contains_set_records STORE_NAME _
                         (elapse (request_latency h) w1))).
      exact Hc1.
    + right; right. exists k. split; [reflexivity|].
      rewrite <- Hrecords.
      apply (records_set_records STORE_NAME _ (elapse (request_latency h) w1)).
      exact Hc1.
Qed.

(** ** Sequences of calls *)

Lemma step_dbPromise c w p :
  dbPromise w = Some p -> dbPromise (step c w) = Some p.
Proof.
  intros H. destruct c as [h o].
  destruct (step_facts h o w) as (Hp & _).
  now rewrite Hp, (openDB_memoized h w p H).
Qed.

Lemma run_dbPromise calls w p :
  dbPromise w = Some p -> dbPromise (run calls w) = Some p.
Proof.
  revert w. induction calls as [|c rest IH]; cbn [run]; intros w H; [exact H|].
  apply IH, step_dbPromise, H.
Qed.

Lemma run_clock calls w : clock w <= clock (run calls w).
Proof.
  revert w. induction calls as [|[h o] rest IH]; cbn [run]; intros w; [lia|].
  destruct (step_facts h o w) as (_ & Hc & _).
  specialize (IH (step (h, o) w)). lia.
Qed.

Lemma run_contains calls w :
  objectStoreNames_contains (disk w) STORE_NAME = true ->
  objectStoreNames_contains (disk (run calls w)) STORE_NAME = true.
Proof.
  revert w. induction calls as [|[h o] rest IH]; cbn [run]; intros w H; [exact H|].
  apply IH. now apply (step_facts h o w).
Qed.

Lemma step_unique_keys c w :
  unique_keys (records STORE_NAME w) ->
  unique_keys (records STORE_NAME (step c w)).
Proof.
  intros H. destruct c as [h o].
  destruct (step_facts h o w) as (_ & _ & _ & [E|[(k & p & t & _ & _ & E)|(k & _ & E)]]);
    rewrite E.
  - exact H.
  - apply (unique_keys_put {| key := k; data := p; timestamp := t |}), H.
  - apply unique_keys_filter, H.
Qed.

Lemma run_unique_keys calls w :
  unique_keys (records STORE_NAME w) ->
  unique_keys (records STORE_NAME (run calls w)).
Proof.
  revert w. induction calls as [|c rest IH]; cbn [run]; intros w H; [exact H|].
  apply IH, step_unique_keys, H.
Qed.

Lemma find_absent_filter k k' (s : ObjectStore) :
  find (has_key k) s = None ->
  find (has_key k) (filter (fun e => negb (has_key k' e)) s) = None.
Proof.
  induction s as [|e s IH]; simpl; [reflexivity|].
  destruct (has_key k e) eqn:E; [discriminate|]. intros H.
  destruct (has_key k' e); simpl; [auto|]. rewrite E. auto.
Qed.

Lemma step_absent k c w :
  writes_key k c = false ->
  find (has_key k) (records STORE_NAME w) = None ->
  find (has_key k) (records STORE_NAME (step c w)) = None.
Proof.
  intros Hw H. destruct c as [h o].
  destruct (step_facts h o w) as (_ & _ & _ & [E|[(k' & p & t & Ho & _ & E)|(k' & _ & E)]]);
    rewrite E.
  - exact H.
  - subst o. unfold writes_key in Hw; simpl in Hw.
    simpl. unfold has_key at 1; simpl. rewrite Hw.
    apply find_absent_filter, H.
  - apply find_absent_filter, H.
Qed.

Lemma run_absent k calls w :
  forallb (fun c => negb (writes_key k c)) calls = true ->
  find (has_key k) (records STORE_NAME w) = None ->
  find (has_key k) (records STORE_NAME (run calls w)) = None.
Proof.
  revert w. induction calls as [|c rest IH]; cbn [run forallb]; intros w Hall H;
    [exact H|].
  apply andb_true_iff in Hall. destruct Hall as [Hc Hrest].
  apply IH; [exact Hrest|]. apply step_absent; [|exact H].
  now apply negb_true_iff.
Qed.

(** ** Calls whose outcome is known *)

Lemma open_rejected_swallowed h w k p e :
  fst (openDB h w) = Rejected e ->
  fst (cacheEmergencyData h k p w) = Fulfilled tt /\
  fst (clearCachedEmergencyData h k w) = Fulfilled tt /\
  fst (getCachedEmergencyData h k w) = Fulfilled None.
Proof.
  intros H.
  rewrite cacheEmergencyData_eq, clearCachedEmergencyData_eq,
    getCachedEmergencyData_eq, opened_eq, H.
  repeat split.
Qed.

Lemma connected_available h w : connected w -> available h w.
Proof.
  intros [[db Hp] Hc]. unfold available.
  rewrite (openDB_memoized h w _ Hp); simpl.
  split; [now exists db | exact Hc].
Qed.

Lemma run_connected calls w : connected w -> connected (run calls w).
Proof.
  intros [[db Hp] Hc]. split.
  - exists db. now apply run_dbPromise.
  - now apply run_contains.
Qed.

Lemma available_opened h w :
  available h w ->
  exists db w1,
    opened h w = (Fulfilled db, w1) /\
    fst (openDB h w) = Fulfilled db /\
    objectStoreNames_contains (disk w1) STORE_NAME = true /\
    clock w1 = clock w + Z.of_N (open_latency h) /\
    console w1 = console w /\
    dbPromise w1 = Some (Fulfilled db) /\
    records STORE_NAME w1 = records STORE_NAME w.
Proof.
  intros [[db Hdb] Hc].
  destruct (opened_facts h w) as (Hclock & Hconsole & Hpromise & Hrecords & _ & Hopen).
  exists db, (snd (opened h w)).
  rewrite Hopen, Hdb in Hpromise.
  repeat split; auto.
  - rewrite <- Hdb, <- Hopen. now destruct (opened h w).
  - rewrite opened_eq. exact Hc.
Qed.

Lemma put_ok h w k p :
  available h w -> no_fault h -> cloneable p = true ->
  fst (cacheEmergencyData h k p w) = Fulfilled tt /\
  records STORE_NAME (snd (cacheEmergencyData h k p w)) =
    {| key := k; data := p; timestamp := clock w + Z.of_N (open_latency h) |}
      :: filter (fun e => negb (has_key k e)) (records STORE_NAME w) /\
  clock (snd (cacheEmergencyData h k p w)) =
    clock w + Z.of_N (open_latency h) + Z.of_N (request_latency h) /\
  console (snd (cacheEmergencyData h k p w)) = console w /\
  connected (snd (cacheEmergencyData h k p w)).
Proof.
  intros Ha [Ht Hr] Hp.
  destruct (available_opened h w Ha) as (db & w1 & E & _ & Hc1 & Hclock & Hcons & Hprom & Hrec).
  rewrite cacheEmergencyData_eq, E, Ht, Hc1, Hp, Hr; simpl.
  rewrite Hclock, Hrec.
  repeat split; auto.
  - apply (records_set_records STORE_NAME _ (elapse (request_latency h) w1)), Hc1.
  - now exists db.
  - apply (eq_trans (contains_set_records STORE_NAME _
                       (elapse (request_latency h) w1))), Hc1.
Qed.

Lemma get_ok h w k :
  available h w -> no_fault h ->
  fst (getCachedEmergencyData h k w) =
    Fulfilled (match find (has_key k) (records STORE_NAME w) with
               | Some r => Some (data r, timestamp r)
               | None => None
               end) /\
  records STORE_NAME (snd (getCachedEmergencyData h k w)) = records STORE_NAME w /\
  clock (snd (getCachedEmergencyData h k w)) =
    clock w + Z.of_N (open_latency h) + Z.of_N (request_latency h) /\
  console (snd (getCachedEmergencyData h k w)) = console w.
Proof.
  intros Ha [Ht Hr].
  destruct (available_opened h w Ha) as (db & w1 & E & _ & Hc1 & Hclock & Hcons & Hprom & Hrec).
  rewrite getCachedEmergencyData_eq, E, Ht, Hc1, Hr; simpl.
  rewrite Hclock, Hrec. repeat split; auto.
Qed.

Lemma delete_ok h w k :
  available h w -> no_fault h ->
  fst (clearCachedEmergencyData h k w) = Fulfilled tt /\
  records STORE_NAME (snd (clearCachedEmergencyData h k w)) =
    filter (fun e => negb (has_key k e)) (records STORE_NAME w) /\
  console (snd (clearCachedEmergencyData h k w)) = console w /\
  connected (snd (clearCachedEmergencyData h k w)).
Proof.
  intros Ha [Ht Hr].
  destruct (available_opened h w Ha) as (db & w1 & E & _ & Hc1 & Hclock & Hcons & Hprom & Hrec).
  rewrite clearCachedEmergencyData_eq, E, Ht, Hc1, Hr; simpl.
  rewrite Hrec.
  repeat split; auto.
  - apply (records_set_records STORE_NAME _ (elapse (request_latency h) w1)), Hc1.
  - now exists db.
  - apply (eq_trans (contains_set_records STORE_NAME _
                       (elapse (request_latency h) w1))), Hc1.
Qed.


Lemma filter_key_put (e : CachedData) (s : ObjectStore) :
  filter (has_key (key e)) (e :: filter (fun x => negb (has_key (key e) x)) s) = [e].
Proof.
  simpl. unfold has_key at 1. rewrite String.eqb_refl.
  now rewrite filter_same_nil.
Qed.

Lemma unique_keys_at_most_one k (s : ObjectStore) :
  unique_keys s -> (List.length (filter (has_key k) s) <= 1)%nat.
Proof.
  unfold unique_keys. induction s as [|e s IH]; simpl; intros H; [lia|].
  inversion H as [|x l Hnotin Hnd]; subst.
  destruct (has_key k e) eqn:E; [|auto].
  unfold has_key in E. apply String.eqb_eq in E. subst k.
  assert (Hnil : filter (has_key (key e)) s = []).
  { destruct (filter (has_key (key e)) s) as [|x l] eqn:F; [reflexivity|].
    exfalso. apply Hnotin.
    assert (Hin : In x (filter (has_key (key e)) s)) by (rewrite F; now left).
    apply filter_In in Hin. destruct Hin as [Hin Hk].
    unfold has_key in Hk. apply String.eqb_eq in Hk. rewrite <- Hk.
    now apply in_map. }
  rewrite Hnil. simpl. lia.
Qed.

(** ** Failures *)

(** C1 (the code departs from the claim).  A failure that the store
    signals after the database was opened is not swallowed: with an
    exhausted quota the write and the read reject with the error of the
    request, and with a closing connection the delete rejects with the
    exception of [db.transaction]; the [catch] block does not run, nothing
    is logged, and the caller's [await] throws. *)
Theorem transaction_failure_reaches_the_caller :
  let k := "ice_card_ABC123" in
  let w := fresh_world 1700000000000 in
  fst (cacheEmergencyData quota_exceeded k card w)
    = Rejected (DOMException "QuotaExceededError") /\
  console (snd (cacheEmergencyData quota_exceeded k card w)) = [] /\
  fst (getCachedEmergencyData quota_exceeded k w)
    = Rejected (DOMException "QuotaExceededError") /\
  fst (clearCachedEmergencyData connection_closing k w)
    = Rejected (DOMException "InvalidStateError") /\
  console (snd (clearCachedEmergencyData connection_closing k w)) = [].
Proof. repeat split. Qed.

(** C2, as stated, fails.  In a returning visit the first read meets a
    browser that refuses to open the database.  The next read runs in a
    browser that has IndexedDB and in which nothing fails, yet it reports
    "absent": [openDB] hands out the rejected promise it kept.  With
    [dbPromise] cleared the same read finds the card. *)
Lemma failed_open_poisons_later_calls :
  let k := "ice_card_ABC123" in
  let w := returning_world 1700000000000 in
  let w1 := step (open_refused, Get k) w in
  dbPromise w = None /\
  window_defined (browser 1 1) && window_indexedDB (browser 1 1) = true /\
  fst (openDB (browser 1 1) w1) = Rejected (DOMException "UnknownError") /\
  fst (getCachedEmergencyData (browser 1 1) k w1) = Fulfilled None /\
  fst (getCachedEmergencyData (browser 1 1) k (set_dbPromise None w1))
    = Fulfilled (Some (card, 1700000000000 - 5000)).
Proof. repeat split. Qed.

(** C2, amended.  When a call finds that the database cannot be opened,
    the rejected promise stays in [dbPromise]: after that call and any
    further calls, [openDB] returns the same rejection in every host,
    without testing the capability or opening again; each such call is
    still swallowed (the write and the delete return normally, the read
    returns [null]). *)
Theorem failed_open_is_memoized h o w e :
  fst (openDB h w) = Rejected e ->
  forall calls h' k p,
    let w' := run calls (step (h, o) w) in
    openDB h' w' = (Rejected e, w') /\
    fst (cacheEmergencyData h' k p w') = Fulfilled tt /\
    fst (clearCachedEmergencyData h' k w') = Fulfilled tt /\
    fst (getCachedEmergencyData h' k w') = Fulfilled None.
Proof.
  intros He calls h' k p w'.
  assert (Hmemo : dbPromise w' = Some (Rejected e)).
  { apply run_dbPromise. destruct (step_facts h o w) as (Hp & _).
    now rewrite Hp, He. }
  assert (Hopen : openDB h' w' = (Rejected e, w')) by now apply openDB_memoized.
  split; [exact Hopen|].
  apply (open_rejected_swallowed h' w' k p e). now rewrite Hopen.
Qed.

Lemma failed_open_is_memoized_witness :
  fst (openDB open_refused (returning_world 1700000000000))
    = Rejected (DOMException "UnknownError") /\
  fst (getCachedEmergencyData (browser 1 1) "ice_card_ABC123"
         (run [(browser 1 1, Put "other" JSNull)]
            (step (open_refused, Get "ice_card_ABC123")
               (returning_world 1700000000000))))
    = Fulfilled None.
Proof.
  split; [reflexivity|].
  apply (failed_open_is_memoized open_refused (Get "ice_card_ABC123")
           (returning_world 1700000000000) (DOMException "UnknownError")
           eq_refl [(browser 1 1, Put "other" JSNull)] (browser 1 1)
           "ice_card_ABC123" JSNull).
Defined.

(** C6.  When the host has no [window] or no [window.indexedDB] and the
    database was not opened before, [openDB] rejects with
    "IndexedDB not available" before any transaction; the write and the
    delete then return normally and the read returns [null]. *)
Theorem store_unavailable_is_swallowed h w k p :
  dbPromise w = None ->
  window_defined h = false \/ window_indexedDB h = false ->
  fst (openDB h w) = Rejected (Error "IndexedDB not available") /\
  fst (cacheEmergencyData h k p w) = Fulfilled tt /\
  fst (clearCachedEmergencyData h k w) = Fulfilled tt /\
  fst (getCachedEmergencyData h k w) = Fulfilled None /\
  disk (snd (cacheEmergencyData h k p w)) = disk w /\
  disk (snd (clearCachedEmergencyData h k w)) = disk w.
Proof.
  intros Hnone Hcap.
  assert (Hopen : openDB h w
                  = (Rejected (Error "IndexedDB not available"),
                     set_dbPromise (Some (Rejected (Error "IndexedDB not available"))) w)).
  { unfold openDB. rewrite Hnone.
    destruct Hcap as [H|H]; rewrite H; simpl; [reflexivity|].
    now rewrite orb_true_r. }
  split; [now rewrite Hopen|].
  destruct (open_rejected_swallowed h w k p (Error "IndexedDB not available"))
    as (Hput & Hdel & Hget); [now rewrite Hopen|].
  repeat split; auto.
  - rewrite cacheEmergencyData_eq, opened_eq, Hopen. reflexivity.
  - rewrite clearCachedEmergencyData_eq, opened_eq, Hopen. reflexivity.
Qed.

Lemma store_unavailable_is_swallowed_witness :
  dbPromise (fresh_world 1700000000000) = None /\
  (window_defined server_side = false \/ window_indexedDB server_side = false) /\
  fst (cacheEmergencyData server_side "ice_card_ABC123" card (fresh_world 1700000000000))
    = Fulfilled tt /\
  fst (getCachedEmergencyData server_side "ice_card_ABC123" (fresh_world 1700000000000))
    = Fulfilled None.
Proof.
  split; [reflexivity|]. split; [left; reflexivity|].
  destruct (store_unavailable_is_swallowed server_side (fresh_world 1700000000000)
              "ice_card_ABC123" card eq_refl (or_introl eq_refl))
    as (_ & Hput & _ & Hget & _).
  split; [exact Hput | exact Hget].
Defined.

(** ** Entries *)

Lemma step_entry c w k0 :
  find (has_key k0) (records STORE_NAME (step c w))
    = find (has_key k0) (records STORE_NAME w) \/
  find (has_key k0) (records STORE_NAME (step c w)) = None \/
  exists p t,
    snd c = Put k0 p /\ clock w <= t <= clock (step c w) /\
    find (has_key k0) (records STORE_NAME (step c w))
      = Some {| key := k0; data := p; timestamp := t |}.
Proof.
  destruct c as [h o].
  destruct (step_facts h o w) as (_ & _ & _ & [E|[(k & p & t & Ho & Ht & E)|(k & _ & E)]]);
    rewrite E.
  - now left.
  - destruct (String.eqb k k0) eqn:Ek.
    + apply String.eqb_eq in Ek. subst k0. right; right. exists p, t.
      repeat split; try tauto.
      simpl. unfold has_key at 1; simpl. now rewrite String.eqb_refl.
    + left. simpl. unfold has_key at 1; simpl. rewrite Ek.
      apply find_filter_other. intros ->. now rewrite String.eqb_refl in Ek.
  - destruct (String.eqb k k0) eqn:Ek.
    + apply String.eqb_eq in Ek. subst k0. right; left. apply find_filter_same.
    + left. apply find_filter_other. intros ->. now rewrite String.eqb_refl in Ek.
Qed.

Lemma find_put k p t (s : ObjectStore) :
  find (has_key k)
    ({| key := k; data := p; timestamp := t |}
       :: filter (fun e => negb (has_key k e)) s)
  = Some {| key := k; data := p; timestamp := t |}.
Proof. simpl. unfold has_key at 1; simpl. now rewrite String.eqb_refl. Qed.

Lemma outcome_independent_of_key h w k k' p :
  fst (cacheEmergencyData h k p w) = fst (cacheEmergencyData h k' p w) /\
  fst (clearCachedEmergencyData h k w) = fst (clearCachedEmergencyData h k' w) /\
  rejection (fst (getCachedEmergencyData h k w))
    = rejection (fst (getCachedEmergencyData h k' w)).
Proof.
  rewrite !cacheEmergencyData_eq, !clearCachedEmergencyData_eq,
    !getCachedEmergencyData_eq.
  destruct (opened h w) as [[db|err] w1]; [|repeat split].
  destruct (transaction_throws h); [repeat split|].
  destruct (objectStoreNames_contains (disk w1) STORE_NAME); [|repeat split].
  destruct (request_onerror h); destruct (cloneable p); repeat split.
Qed.

(** C3.  In a host where the store is available and neither call meets a
    failure, a write of a cloneable payload [p] under [k] followed by a
    read of [k] returns [p] itself, with the timestamp [t] read from the
    clock during the write: [t] is not before the moment the write was
    called and not after the moment it returned, which is when the read
    is called. *)
Theorem put_then_get_returns_payload h1 h2 w k p :
  available h1 w -> no_fault h1 -> cloneable p = true -> no_fault h2 ->
  let w1 := snd (cacheEmergencyData h1 k p w) in
  let w2 := snd (getCachedEmergencyData h2 k w1) in
  exists t,
    fst (cacheEmergencyData h1 k p w) = Fulfilled tt /\
    fst (getCachedEmergencyData h2 k w1) = Fulfilled (Some (p, t)) /\
    clock w <= t <= clock w1 /\ clock w1 <= clock w2.
Proof.
  intros Ha Hf1 Hp Hf2 w1 w2.
  destruct (put_ok h1 w k p Ha Hf1 Hp) as (Hput & Hrec & Hclock & _ & Hconn).
  destruct (get_ok h2 w1 k (connected_available h2 w1 Hconn) Hf2)
    as (Hget & _ & Hclock2 & _).
  exists (clock w + Z.of_N (open_latency h1)).
  split; [exact Hput|]. split.
  - rewrite Hget. unfold w1. rewrite Hrec, find_put. reflexivity.
  - unfold w2. rewrite Hclock2. unfold w1. rewrite Hclock. lia.
Qed.

Lemma put_then_get_returns_payload_witness :
  available (browser 2 3) (fresh_world 1700000000000) /\
  no_fault (browser 2 3) /\ cloneable card = true /\ no_fault (browser 1 1) /\
  exists t,
    fst (cacheEmergencyData (browser 2 3) "ice_card_ABC123" card
           (fresh_world 1700000000000)) = Fulfilled tt /\
    fst (getCachedEmergencyData (browser 1 1) "ice_card_ABC123"
           (snd (cacheEmergencyData (browser 2 3) "ice_card_ABC123" card
                   (fresh_world 1700000000000))))
      = Fulfilled (Some (card, t)) /\
    1700000000000 <= t <= 1700000000005.
Proof.
  assert (Ha : available (browser 2 3) (fresh_world 1700000000000)).
  { split; [eexists; reflexivity | reflexivity]. }
  assert (Hf1 : no_fault (browser 2 3)) by (split; reflexivity).
  assert (Hf2 : no_fault (browser 1 1)) by (split; reflexivity).
  repeat (split; [assumption || reflexivity|]).
  destruct (put_then_get_returns_payload (browser 2 3) (browser 1 1)
              (fresh_world 1700000000000) "ice_card_ABC123" card
              Ha Hf1 eq_refl Hf2) as (t & Hput & Hget & Ht & _).
  exists t. split; [exact Hput|]. split; [exact Hget|]. exact Ht.
Defined.

(** C4.  With the store available and no failure, two writes under the
    same key followed by a read return the second payload with the
    timestamp of the second write; the store then holds one record for
    the key, the second entry.  Whatever calls are made, in whatever
    hosts, a store whose keys are pairwise different keeps at most one
    record per key. *)
Theorem second_put_replaces_first h1 h2 h3 w k p1 p2 :
  available h1 w -> no_fault h1 -> cloneable p1 = true ->
  no_fault h2 -> cloneable p2 = true -> no_fault h3 ->
  unique_keys (records STORE_NAME w) ->
  let w1 := snd (cacheEmergencyData h1 k p1 w) in
  let w2 := snd (cacheEmergencyData h2 k p2 w1) in
  let t2 := clock w1 + Z.of_N (open_latency h2) in
  fst (getCachedEmergencyData h3 k w2) = Fulfilled (Some (p2, t2)) /\
  filter (has_key k) (records STORE_NAME w2)
    = [{| key := k; data := p2; timestamp := t2 |}] /\
  forall calls k',
    (List.length (filter (has_key k') (records STORE_NAME (run calls w))) <= 1)%nat.
Proof.
  intros Ha Hf1 Hp1 Hf2 Hp2 Hf3 Huniq w1 w2 t2.
  destruct (put_ok h1 w k p1 Ha Hf1 Hp1) as (_ & _ & _ & _ & Hconn1).
  destruct (put_ok h2 w1 k p2 (connected_available h2 w1 Hconn1) Hf2 Hp2)
    as (_ & Hrec2 & _ & _ & Hconn2).
  destruct (get_ok h3 w2 k (connected_available h3 w2 Hconn2) Hf3) as (Hget & _).
  fold w2 in Hrec2. fold t2 in Hrec2.
  split; [|split].
  - rewrite Hget, Hrec2, find_put. reflexivity.
  - rewrite Hrec2.
    apply (filter_key_put {| key := k; data := p2; timestamp := t2 |}).
  - intros calls k'. apply unique_keys_at_most_one, run_unique_keys, Huniq.
Qed.

Lemma second_put_replaces_first_witness :
  available (browser 2 3) (fresh_world 1700000000000) /\
  no_fault (browser 2 3) /\ cloneable JSNull = true /\ cloneable card = true /\
  unique_keys (records STORE_NAME (fresh_world 1700000000000)) /\
  fst (getCachedEmergencyData (browser 2 3) "ice_card_ABC123"
         (snd (cacheEmergencyData (browser 2 3) "ice_card_ABC123" card
                 (snd (cacheEmergencyData (browser 2 3) "ice_card_ABC123" JSNull
                         (fresh_world 1700000000000))))))
    = Fulfilled (Some (card, 1700000000007)).
Proof.
  assert (Ha : available (browser 2 3) (fresh_world 1700000000000)).
  { split; [eexists; reflexivity | reflexivity]. }
  assert (Hf : no_fault (browser 2 3)) by (split; reflexivity).
  assert (Hu : unique_keys (records STORE_NAME (fresh_world 1700000000000)))
    by constructor.
  repeat (split; [assumption || reflexivity|]).
  exact (proj1 (second_put_replaces_first (browser 2 3) (browser 2 3) (browser 2 3)
                  (fresh_world 1700000000000) "ice_card_ABC123" JSNull card
                  Ha Hf eq_refl Hf eq_refl Hf Hu)).
Defined.

(** C7.  With the store available and no failure, a delete returns
    normally and the module stays connected to the database; the store
    then holds no record under the key, and the entry of every other key
    is as before.  When the key had no entry, the delete leaves the
    records and the console as they were.  After the delete, whatever
    calls follow in whatever hosts, as long as none of them is a write
    under that key, the store still holds no record under the key and a
    read of the key that meets no failure returns [null]. *)
Theorem delete_then_absent h w k :
  available h w -> no_fault h ->
  let w' := snd (clearCachedEmergencyData h k w) in
  fst (clearCachedEmergencyData h k w) = Fulfilled tt /\
  find (has_key k) (records STORE_NAME w') = None /\
  connected w' /\
  (forall k', k' <> k ->
              find (has_key k') (records STORE_NAME w')
                = find (has_key k') (records STORE_NAME w)) /\
  (find (has_key k) (records STORE_NAME w) = None ->
   records STORE_NAME w' = records STORE_NAME w /\ console w' = console w) /\
  forall calls h',
    forallb (fun c => negb (writes_key k c)) calls = true ->
    find (has_key k) (records STORE_NAME (run calls w')) = None /\
    connected (run calls w') /\
    (no_fault h' ->
     fst (getCachedEmergencyData h' k (run calls w')) = Fulfilled None).
Proof.
  intros Ha Hf w'.
  destruct (delete_ok h w k Ha Hf) as (Hdel & Hrec & Hcons & Hconn).
  fold w' in Hrec, Hcons, Hconn.
  assert (Hgone : find (has_key k) (records STORE_NAME w') = None).
  { rewrite Hrec. apply find_filter_same. }
  split; [exact Hdel|]. split; [exact Hgone|]. split; [exact Hconn|].
  split; [|split].
  - intros k' Hk'. rewrite Hrec. now apply find_filter_other.
  - intros Habsent. split; [|exact Hcons].
    rewrite Hrec. now apply filter_absent.
  - intros calls h' Hcalls.
    pose proof (run_absent k calls w' Hcalls Hgone) as Hstill.
    pose proof (run_connected calls w' Hconn) as Hconn'.
    split; [exact Hstill|]. split; [exact Hconn'|].
    intros Hf'.
    destruct (get_ok h' (run calls w') k (connected_available h' _ Hconn') Hf')
      as (Hget & _).
    now rewrite Hget, Hstill.
Qed.

Lemma delete_then_absent_witness :
  available (browser 1 1) (returning_world 1700000000000) /\
  no_fault (browser 1 1) /\
  fst (clearCachedEmergencyData (browser 1 1) "ice_card_ABC123"
         (returning_world 1700000000000)) = Fulfilled tt /\
  find (has_key "ice_card_ABC123")
    (records STORE_NAME
       (snd (clearCachedEmergencyData (browser 1 1) "ice_card_ABC123"
               (returning_world 1700000000000)))) = None /\
  fst (getCachedEmergencyData (browser 1 1) "ice_card_ABC123"
         (run [(browser 1 1, Put "ice_card_XYZ789" card);
               (quota_exceeded, Get "ice_card_ABC123");
               (browser 1 1, Delete "ice_card_ABC123")]
            (snd (clearCachedEmergencyData (browser 1 1) "ice_card_ABC123"
                    (returning_world 1700000000000)))))
    = Fulfilled None.
Proof.
  assert (Ha : available (browser 1 1) (returning_world 1700000000000)).
  { split; [eexists; reflexivity | reflexivity]. }
  assert (Hf : no_fault (browser 1 1)) by (split; reflexivity).
  repeat (split; [assumption|]).
  destruct (delete_then_absent (browser 1 1) (returning_world 1700000000000)
              "ice_card_ABC123" Ha Hf) as (Hdel & Hgone & _ & _ & _ & Hlater).
  split; [exact Hdel|]. split; [exact Hgone|].
  exact (proj2 (proj2
           (Hlater [(browser 1 1, Put "ice_card_XYZ789" card);
                    (quota_exceeded, Get "ice_card_ABC123");
                    (browser 1 1, Delete "ice_card_ABC123")]
              (browser 1 1) eq_refl)) Hf).
Defined.

(** C8.  A write that succeeds stores, under its key, the entry made of
    the key, the payload and the value the clock has when the entry is
    built inside the call, a moment between the call and its return.
    That value is the same whatever key and payload the caller passes.
    No call changes a stored entry in part: after any call the entry of
    a key is the one before, or is gone, or is the whole new entry of a
    write under that key, stamped with the clock during that call. *)
Theorem capturedAt_is_clock_at_write h w k p :
  available h w -> no_fault h -> cloneable p = true ->
  let w' := snd (cacheEmergencyData h k p w) in
  let now := clock w + Z.of_N (open_latency h) in
  find (has_key k) (records STORE_NAME w')
    = Some {| key := k; data := p; timestamp := now |} /\
  clock w <= now <= clock w' /\
  (forall k' p',
      cloneable p' = true ->
      exists e,
        find (has_key k') (records STORE_NAME (snd (cacheEmergencyData h k' p' w)))
          = Some e /\
        timestamp e = now) /\
  forall c w0 k0,
    find (has_key k0) (records STORE_NAME (step c w0))
      = find (has_key k0) (records STORE_NAME w0) \/
    find (has_key k0) (records STORE_NAME (step c w0)) = None \/
    exists p0 t,
      snd c = Put k0 p0 /\ clock w0 <= t <= clock (step c w0) /\
      find (has_key k0) (records STORE_NAME (step c w0))
        = Some {| key := k0; data := p0; timestamp := t |}.
Proof.
  intros Ha Hf Hp w' now.
  destruct (put_ok h w k p Ha Hf Hp) as (_ & Hrec & Hclock & _).
  fold w' in Hrec, Hclock. fold now in Hrec.
  split; [now rewrite Hrec, find_put|].
  split; [unfold now; rewrite Hclock; lia|].
  split.
  - intros k' p' Hp'.
    destruct (put_ok h w k' p' Ha Hf Hp') as (_ & Hrec' & _).
    exists {| key := k'; data := p'; timestamp := now |}.
    split; [now rewrite Hrec', find_put | reflexivity].
  - intros c w0 k0. apply step_entry.
Qed.

Lemma capturedAt_is_clock_at_write_witness :
  available (browser 2 3) (fresh_world 1700000000000) /\
  no_fault (browser 2 3) /\
  cloneable (JSObject [("timestamp", JSNumber 5)]) = true /\
  find (has_key "k")
    (records STORE_NAME
       (snd (cacheEmergencyData (browser 2 3) "k"
               (JSObject [("timestamp", JSNumber 5)])
               (fresh_world 1700000000000))))
  = Some {| key := "k";
            data := JSObject [("timestamp", JSNumber 5)];
            timestamp := 1700000000002 |}.
Proof.
  assert (Ha : available (browser 2 3) (fresh_world 1700000000000)).
  { split; [eexists; reflexivity | reflexivity]. }
  assert (Hf : no_fault (browser 2 3)) by (split; reflexivity).
  repeat (split; [assumption || reflexivity|]).
  exact (proj1 (capturedAt_is_clock_at_write (browser 2 3)
                  (fresh_world 1700000000000) "k"
                  (JSObject [("timestamp", JSNumber 5)]) Ha Hf eq_refl)).
Defined.

(** C10.  The empty string is a key like any other.  With the store
    available and no failure, a write under [""] returns normally, a
    read of [""] returns the payload written, and a read after a delete
    of [""] returns [null].  In every host and state each operation
    settles for [""] as it does for any other key: the write and the
    delete with the same outcome, the read with the same error or none. *)
Theorem empty_key_is_ordinary h1 h2 h3 w p :
  available h1 w -> no_fault h1 -> cloneable p = true ->
  no_fault h2 -> no_fault h3 ->
  let w1 := snd (cacheEmergencyData h1 "" p w) in
  let w2 := snd (clearCachedEmergencyData h2 "" w1) in
  fst (cacheEmergencyData h1 "" p w) = Fulfilled tt /\
  fst (getCachedEmergencyData h2 "" w1)
    = Fulfilled (Some (p, clock w + Z.of_N (open_latency h1))) /\
  fst (clearCachedEmergencyData h2 "" w1) = Fulfilled tt /\
  fst (getCachedEmergencyData h3 "" w2) = Fulfilled None /\
  forall h0 w0 k p0,
    fst (cacheEmergencyData h0 "" p0 w0) = fst (cacheEmergencyData h0 k p0 w0) /\
    fst (clearCachedEmergencyData h0 "" w0) = fst (clearCachedEmergencyData h0 k w0) /\
    rejection (fst (getCachedEmergencyData h0 "" w0))
      = rejection (fst (getCachedEmergencyData h0 k w0)).
Proof.
  intros Ha Hf1 Hp Hf2 Hf3 w1 w2.
  destruct (put_ok h1 w "" p Ha Hf1 Hp) as (Hput & Hrec & _ & _ & Hconn).
  fold w1 in Hrec, Hconn.
  destruct (get_ok h2 w1 "" (connected_available h2 w1 Hconn) Hf2) as (Hget & _).
  destruct (delete_ok h2 w1 "" (connected_available h2 w1 Hconn) Hf2)
    as (Hdel & Hrec2 & _ & Hconn2).
  fold w2 in Hrec2, Hconn2.
  destruct (get_ok h3 w2 "" (connected_available h3 w2 Hconn2) Hf3) as (Hget2 & _).
  split; [exact Hput|]. split; [now rewrite Hget, Hrec, find_put|].
  split; [exact Hdel|]. split; [now rewrite Hget2, Hrec2, find_filter_same|].
  intros h0 w0 k p0. apply outcome_independent_of_key.
Qed.

Lemma empty_key_is_ordinary_witness :
  available (browser 2 3) (fresh_world 1700000000000) /\
  no_fault (browser 2 3) /\ cloneable card = true /\
  fst (getCachedEmergencyData (browser 2 3) ""
         (snd (cacheEmergencyData (browser 2 3) "" card (fresh_world 1700000000000))))
    = Fulfilled (Some (card, 1700000000002)).
Proof.
  assert (Ha : available (browser 2 3) (fresh_world 1700000000000)).
  { split; [eexists; reflexivity | reflexivity]. }
  assert (Hf : no_fault (browser 2 3)) by (split; reflexivity).
  repeat (split; [assumption || reflexivity|]).
  destruct (empty_key_is_ordinary (browser 2 3) (browser 2 3) (browser 2 3)
              (fresh_world 1700000000000) card Ha Hf eq_refl Hf Hf)
    as (_ & Hget & _).
  exact Hget.
Defined.

(** ** Age of an entry *)

Lemma floor_bounds a b : 0 < b -> b * (a / b) <= a < b * (a / b + 1).
Proof.
  intros Hb. split; [now apply Z.mul_div_le|].
  now apply Z.mul_succ_div_gt.
Qed.

Ltac age_buckets now timestamp :=
  unfold formatCacheTimestamp;
  pose proof (floor_bounds (now - timestamp) 60000 eq_refl);
  pose proof (floor_bounds (now - timestamp) 3600000 eq_refl);
  pose proof (floor_bounds (now - timestamp) 86400000 eq_refl);
  destruct (Z.ltb_spec ((now - timestamp) / 60000) 1);
  destruct (Z.ltb_spec ((now - timestamp) / 60000) 60);
  destruct (Z.ltb_spec ((now - timestamp) / 3600000) 24);
  destruct (Z.ltb_spec ((now - timestamp) / 86400000) 7).

(** C5.  For a timestamp in the past, with [elapsed = now - timestamp]:
    below one minute the result is "Just now"; below sixty minutes it is
    "<N> minute(s) ago", below twenty-four hours "<N> hour(s) ago", below
    seven days "<N> day(s) ago", where [N] is the number of whole units
    that fit in [elapsed] (the floor of the quotient) and the unit takes
    no "s" exactly when [N = 1]; from seven days on it is the date as the
    locale prints it. *)
Theorem formatCacheTimestamp_buckets (toLocaleDateString : Z -> string) now t :
  t < now ->
  let elapsed := now - t in
  let shown := formatCacheTimestamp toLocaleDateString now t in
  let plural := fun N : Z => if N =? 1 then "" else "s" in
  (elapsed < 60000 -> shown = "Just now") /\
  (60000 <= elapsed < 3600000 ->
   exists N, 60000 * N <= elapsed < 60000 * (N + 1) /\
             shown = Number_toString N ++ " minute" ++ plural N ++ " ago") /\
  (3600000 <= elapsed < 86400000 ->
   exists N, 3600000 * N <= elapsed < 3600000 * (N + 1) /\
             shown = Number_toString N ++ " hour" ++ plural N ++ " ago") /\
  (86400000 <= elapsed < 604800000 ->
   exists N, 86400000 * N <= elapsed < 86400000 * (N + 1) /\
             shown = Number_toString N ++ " day" ++ plural N ++ " ago") /\
  (604800000 <= elapsed -> shown = toLocaleDateString t).
Proof.
  intros _ elapsed shown plural. unfold shown, elapsed.
  age_buckets now t; repeat split; intros; try lia; try reflexivity.
  - exists ((now - t) / 60000). split; [assumption | reflexivity].
  - exists ((now - t) / 3600000). split; [assumption | reflexivity].
  - exists ((now - t) / 86400000). split; [assumption | reflexivity].
Qed.

Lemma formatCacheTimestamp_buckets_witness :
  1700000000000 - 119999 < 1700000000000 /\
  formatCacheTimestamp (fun _ => "11/14/2023") 1700000000000 (1700000000000 - 119999)
    = "1 minute ago".
Proof.
  split; [reflexivity|].
  destruct (formatCacheTimestamp_buckets (fun _ => "11/14/2023")
              1700000000000 (1700000000000 - 119999) eq_refl)
    as (_ & Hminutes & _).
  destruct Hminutes as (N & HN & Hshown); [split; [discriminate | reflexivity]|].
  assert (HN1 : N = 1) by lia.
  rewrite Hshown, HN1. reflexivity.
Defined.

(** The examples of the specification. *)
Example formatCacheTimestamp_examples :
  let now := 1700000000000 in
  let f := formatCacheTimestamp (fun _ => "11/4/2023") now in
  f (now - 30 * 1000) = "Just now" /\
  f (now - 90 * 1000) = "1 minute ago" /\
  f (now - 2 * 3600 * 1000) = "2 hours ago" /\
  f (now - 3 * 86400 * 1000) = "3 days ago" /\
  f (now - 10 * 86400 * 1000) = "11/4/2023".
Proof. repeat split. Qed.

(** C9.  For a timestamp that is not in the past the result is
    "Just now": the elapsed time is zero or negative and the floored
    minute count is below one. *)
Theorem formatCacheTimestamp_not_past (toLocaleDateString : Z -> string) now t :
  now <= t ->
  (now - t) / 60000 < 1 /\
  formatCacheTimestamp toLocaleDateString now t = "Just now".
Proof.
  intros Hle.
  age_buckets now t; split; try lia; reflexivity.
Qed.

Lemma formatCacheTimestamp_not_past_witness :
  1700000000000 <= 1700000000000 + 864000000 /\
  formatCacheTimestamp (fun _ => "11/24/2023") 1700000000000
    (1700000000000 + 864000000) = "Just now".
Proof.
  assert (Hle : 1700000000000 <= 1700000000000 + 864000000) by discriminate.
  split; [exact Hle|].
  exact (proj2 (formatCacheTimestamp_not_past (fun _ => "11/24/2023")
                  1700000000000 (1700000000000 + 864000000) Hle)).
Defined.

(** * Further properties of the cache *)

Lemma step_console h o w :
  console (step (h, o) w) =
  match fst (openDB h w) with
  | Rejected e => (console w ++ [(log_message o, e)])%list
  | Fulfilled _ => console w
  end.
Proof.
  destruct o as [k p|k|k]; simpl step.
  - rewrite cacheEmergencyData_eq. open_call h w; rewrite <- Hopen;
      [|simpl; now rewrite Hconsole].
    destruct (transaction_throws h); simpl; [exact Hconsole|].
    destruct (objectStoreNames_contains (disk w1) STORE_NAME); simpl;
      [|exact Hconsole].
    destruct (cloneable p); simpl; [|exact Hconsole].
    destruct (request_onerror h); exact Hconsole.
  - rewrite getCachedEmergencyData_eq. open_call h w; rewrite <- Hopen;
      [|simpl; now rewrite Hconsole].
    destruct (transaction_throws h); simpl; [exact Hconsole|].
    destruct (objectStoreNames_contains (disk w1) STORE_NAME); simpl;
      [|exact Hconsole].
    destruct (request_onerror h); exact Hconsole.
  - rewrite clearCachedEmergencyData_eq. open_call h w; rewrite <- Hopen;
      [|simpl; now rewrite Hconsole].
    destruct (transaction_throws h); simpl; [exact Hconsole|].
    destruct (objectStoreNames_contains (disk w1) STORE_NAME); simpl;
      [|exact Hconsole].
    destruct (request_onerror h); exact Hconsole.
Qed.

Lemma step_version h o w :
  version (disk (step (h, o) w)) = version (disk (snd (openDB h w))).
Proof.
  destruct o as [k p|k|k]; simpl step.
  - rewrite cacheEmergencyData_eq, opened_eq.
    destruct (fst (openDB h w)); [|reflexivity].
    destruct (transaction_throws h); [reflexivity|].
    destruct (objectStoreNames_contains _ STORE_NAME); [|reflexivity].
    destruct (cloneable p); [|reflexivity].
    destruct (request_onerror h); reflexivity.
  - rewrite getCachedEmergencyData_eq, opened_eq.
    destruct (fst (openDB h w)); [|reflexivity].
    destruct (transaction_throws h); [reflexivity|].
    destruct (objectStoreNames_contains _ STORE_NAME); [|reflexivity].
    destruct (request_onerror h); reflexivity.
  - rewrite clearCachedEmergencyData_eq, opened_eq.
    destruct (fst (openDB h w)); [|reflexivity].
    destruct (transaction_throws h); [reflexivity|].
    destruct (objectStoreNames_contains _ STORE_NAME); [|reflexivity].
    destruct (request_onerror h); reflexivity.
Qed.

Lemma step_untouched k c w :
  touches_key k c = false ->
  find (has_key k) (records STORE_NAME (step c w))
    = find (has_key k) (records STORE_NAME w).
Proof.
  intros Ht. destruct c as [h o].
  destruct (step_facts h o w)
    as (_ & _ & _ & [E|[(k' & p & t & Ho & _ & E)|(k' & Ho & E)]]);
    rewrite E; [reflexivity| |]; subst o; unfold touches_key in Ht; simpl in Ht.
  - simpl. unfold has_key at 1; simpl. rewrite Ht.
    apply find_filter_other. intros ->. now rewrite String.eqb_refl in Ht.
  - apply find_filter_other. intros ->. now rewrite String.eqb_refl in Ht.
Qed.

Lemma run_untouched k calls w :
  forallb (fun c => negb (touches_key k c)) calls = true ->
  find (has_key k) (records STORE_NAME (run calls w))
    = find (has_key k) (records STORE_NAME w).
Proof.
  revert w. induction calls as [|c rest IH]; cbn [run forallb]; intros w Hall;
    [reflexivity|].
  apply andb_true_iff in Hall. destruct Hall as [Hc Hrest].
  rewrite (IH _ Hrest). apply step_untouched. now apply negb_true_iff.
Qed.

Lemma step_ready c w : ready w -> ready (step c w).
Proof.
  intros [Hconn Hv]. split; [exact (run_connected [c] w Hconn)|].
  destruct c as [h o]. destruct Hconn as [[db Hp] _].
  now rewrite step_version, (openDB_memoized h w _ Hp).
Qed.

Lemma run_ready calls w : ready w -> ready (run calls w).
Proof.
  revert w. induction calls as [|c rest IH]; cbn [run]; intros w H; [exact H|].
  apply IH, step_ready, H.
Qed.

Lemma openDB_first_version h w db :
  dbPromise w = None -> fst (openDB h w) = Fulfilled db ->
  version (disk (snd (openDB h w))) = DB_VERSION.
Proof.
  unfold openDB. intros ->.
  destruct (negb (window_defined h) || negb (window_indexedDB h)); simpl;
    [discriminate|].
  unfold indexedDB_open. destruct (open_onerror h); simpl; [discriminate|].
  destruct (N.ltb_spec DB_VERSION (version (disk w))); simpl; [discriminate|].
  destruct (N.ltb_spec (version (disk w)) DB_VERSION); simpl; intros _;
    [reflexivity | lia].
Qed.

Lemma available_step_connected h o w :
  available h w -> connected (step (h, o) w).
Proof.
  intros [[db Hdb] Hc].
  destruct (step_facts h o w) as (Hp & _ & _ & _).
  split; [exists db; now rewrite Hp, Hdb|].
  destruct o as [k p|k|k]; simpl step.
  - rewrite cacheEmergencyData_eq, opened_eq, Hdb.
    destruct (transaction_throws h); [exact Hc|].
    change (objectStoreNames_contains
              (disk (elapse (open_latency h) (snd (openDB h w)))) STORE_NAME)
      with (objectStoreNames_contains (disk (snd (openDB h w))) STORE_NAME).
    rewrite Hc. destruct (cloneable p); [|exact Hc].
    destruct (request_onerror h); [exact Hc|].
    apply (eq_trans (contains_set_records STORE_NAME _ _)), Hc.
  - rewrite getCachedEmergencyData_eq, opened_eq, Hdb.
    destruct (transaction_throws h); [exact Hc|].
    change (objectStoreNames_contains
              (disk (elapse (open_latency h) (snd (openDB h w)))) STORE_NAME)
      with (objectStoreNames_contains (disk (snd (openDB h w))) STORE_NAME).
    rewrite Hc. destruct (request_onerror h); exact Hc.
  - rewrite clearCachedEmergencyData_eq, opened_eq, Hdb.
    destruct (transaction_throws h); [exact Hc|].
    change (objectStoreNames_contains
              (disk (elapse (open_latency h) (snd (openDB h w)))) STORE_NAME)
      with (objectStoreNames_contains (disk (snd (openDB h w))) STORE_NAME).
    rewrite Hc. destruct (request_onerror h); [exact Hc|].
    apply (eq_trans (contains_set_records STORE_NAME _ _)), Hc.
Qed.

Lemma first_call_ready h o w :
  dbPromise w = None -> available h w -> ready (step (h, o) w).
Proof.
  intros Hnone Ha. split; [now apply available_step_connected|].
  destruct Ha as [[db Hdb] _].
  rewrite step_version. now apply (openDB_first_version h w db).
Qed.

Lemma reload_available h w :
  ready w -> opens h -> available h (reload w).
Proof.
  intros [[_ Hc] Hv] (Hw & Hi & Ho).
  assert (E : openDB h (reload w)
              = (Fulfilled {| db_name := DB_NAME; db_version := DB_VERSION |},
                 set_dbPromise
                   (Some (Fulfilled {| db_name := DB_NAME; db_version := DB_VERSION |}))
                   (reload w))).
  { unfold openDB, indexedDB_open.
    change (dbPromise (reload w)) with (@None (Settled IDBDatabase)).
    change (disk (reload w)) with (disk w).
    cbv beta iota. rewrite Hw, Hi, Ho. cbn [negb orb]. cbv beta.
    change (disk (reload w)) with (disk w). rewrite Hv. reflexivity. }
  unfold available. rewrite E. split; [eexists; reflexivity | exact Hc].
Qed.

Lemma run_reads calls w :
  forallb (fun c => match snd c with Get _ => true | _ => false end) calls = true ->
  records STORE_NAME (run calls w) = records STORE_NAME w.
Proof.
  revert w. induction calls as [|[h o] rest IH]; cbn [run forallb snd]; intros w Hall;
    [reflexivity|].
  apply andb_true_iff in Hall. destruct Hall as [Ho Hrest].
  rewrite (IH _ Hrest).
  destruct (step_facts h o w)
    as (_ & _ & _ & [E|[(k' & p & t & Hput & _)|(k' & Hdel & _)]]);
    [exact E | |]; subst o; discriminate.
Qed.

(** X1.  A read never writes: in every host and state, whether it
    succeeds, is swallowed or rejects, [getCachedEmergencyData] leaves the
    records of the store as they were.  So does a run of reads. *)
Theorem read_never_writes calls w :
  forallb (fun c => match snd c with Get _ => true | _ => false end) calls = true ->
  records STORE_NAME (run calls w) = records STORE_NAME w.
Proof. apply run_reads. Qed.

Lemma read_never_writes_witness :
  records STORE_NAME
    (run [(browser 1 1, Get "ice_card_ABC123"); (quota_exceeded, Get "");
          (server_side, Get "ice_card_ABC123")]
       (returning_world 1700000000000))
  = records STORE_NAME (returning_world 1700000000000).
Proof.
  exact (read_never_writes
           [(browser 1 1, Get "ice_card_ABC123"); (quota_exceeded, Get "");
            (server_side, Get "ice_card_ABC123")]
           (returning_world 1700000000000) eq_refl).
Defined.

(** X2.  Keys do not interfere: in every host, a write or a delete under
    one key leaves the entry of every other key as it was, over any run
    of calls that neither write nor delete that other key. *)
Theorem other_keys_untouched k calls w :
  forallb (fun c => negb (touches_key k c)) calls = true ->
  find (has_key k) (records STORE_NAME (run calls w))
    = find (has_key k) (records STORE_NAME w).
Proof. apply run_untouched. Qed.

Lemma other_keys_untouched_witness :
  find (has_key "ice_card_ABC123")
    (records STORE_NAME
       (run [(browser 1 1, Put "ice_card_XYZ789" card);
             (browser 1 1, Delete "ice_card_XYZ789");
             (browser 1 1, Delete "")]
          (returning_world 1700000000000)))
  = Some {| key := "ice_card_ABC123"; data := card;
            timestamp := 1700000000000 - 5000 |}.
Proof.
  exact (other_keys_untouched "ice_card_ABC123"
           [(browser 1 1, Put "ice_card_XYZ789" card);
            (browser 1 1, Delete "ice_card_XYZ789");
            (browser 1 1, Delete "")]
           (returning_world 1700000000000) eq_refl).
Defined.

Lemma step_rejected c w e :
  failure c w = Some e ->
  records STORE_NAME (step c w) = records STORE_NAME w /\
  console (step c w) = console w.
Proof.
  destruct c as [h [k p|k|k]]; unfold failure; simpl step.
  - rewrite cacheEmergencyData_eq. open_call h w; [|discriminate].
    destruct (transaction_throws h); simpl; [auto|].
    destruct (objectStoreNames_contains (disk w1) STORE_NAME); simpl; [|auto].
    destruct (cloneable p); simpl; [|auto].
    destruct (request_onerror h); simpl; [auto | discriminate].
  - rewrite getCachedEmergencyData_eq. open_call h w; [|discriminate].
    destruct (transaction_throws h); simpl; [auto|].
    destruct (objectStoreNames_contains (disk w1) STORE_NAME); simpl; [|auto].
    destruct (request_onerror h); simpl; [auto | discriminate].
  - rewrite clearCachedEmergencyData_eq. open_call h w; [|discriminate].
    destruct (transaction_throws h); simpl; [auto|].
    destruct (objectStoreNames_contains (disk w1) STORE_NAME); simpl; [|auto].
    destruct (request_onerror h); simpl; [auto | discriminate].
Qed.

(** X3.  A call that rejects has changed nothing and logged nothing: when
    the caller of a write, a read or a delete observes an error, the
    records and the console are as before the call. *)
Theorem rejected_call_changes_nothing c w e :
  failure c w = Some e ->
  records STORE_NAME (step c w) = records STORE_NAME w /\
  console (step c w) = console w.
Proof. apply step_rejected. Qed.

Lemma rejected_call_changes_nothing_witness :
  failure (quota_exceeded, Put "ice_card_ABC123" JSNull) (returning_world 1700000000000)
    = Some (DOMException "QuotaExceededError") /\
  find (has_key "ice_card_ABC123")
    (records STORE_NAME
       (step (quota_exceeded, Put "ice_card_ABC123" JSNull)
          (returning_world 1700000000000)))
  = Some {| key := "ice_card_ABC123"; data := card;
            timestamp := 1700000000000 - 5000 |}.
Proof.
  split; [reflexivity|].
  rewrite (proj1 (rejected_call_changes_nothing
                    (quota_exceeded, Put "ice_card_ABC123" JSNull)
                    (returning_world 1700000000000)
                    (DOMException "QuotaExceededError") eq_refl)).
  reflexivity.
Defined.

(** X4.  A payload that cannot be cloned (it holds a function) makes the
    write reject with [DataCloneError] when the store is available: the
    error reaches the caller, nothing is stored and nothing is logged. *)
Theorem uncloneable_payload_is_rejected h w k p :
  available h w -> transaction_throws h = None -> cloneable p = false ->
  fst (cacheEmergencyData h k p w) = Rejected (DOMException "DataCloneError") /\
  records STORE_NAME (snd (cacheEmergencyData h k p w)) = records STORE_NAME w /\
  console (snd (cacheEmergencyData h k p w)) = console w.
Proof.
  intros Ha Ht Hp.
  destruct (available_opened h w Ha)
    as (db & w1 & E & _ & Hc1 & _ & Hcons & _ & Hrec).
  rewrite cacheEmergencyData_eq, E, Ht, Hc1, Hp. simpl. auto.
Qed.

Lemma uncloneable_payload_is_rejected_witness :
  available (browser 1 1) (returning_world 1700000000000) /\
  transaction_throws (browser 1 1) = None /\
  cloneable (JSObject [("holder_name", JSString "A"); ("print", JSFunction "print")])
    = false /\
  fst (cacheEmergencyData (browser 1 1) "ice_card_ABC123"
         (JSObject [("holder_name", JSString "A"); ("print", JSFunction "print")])
         (returning_world 1700000000000))
    = Rejected (DOMException "DataCloneError").
Proof.
  assert (Ha : available (browser 1 1) (returning_world 1700000000000)).
  { split; [eexists; reflexivity | reflexivity]. }
  repeat (split; [assumption || reflexivity|]).
  exact (proj1 (uncloneable_payload_is_rejected (browser 1 1)
                  (returning_world 1700000000000) "ice_card_ABC123"
                  (JSObject [("holder_name", JSString "A");
                             ("print", JSFunction "print")])
                  Ha eq_refl eq_refl)).
Defined.

(** X5.  An entry outlives the page.  After a write that succeeds in the
    first call of a session, any further calls that neither write nor
    delete the key, and a reload of the page, a read in a browser that
    opens the database and meets no failure returns the payload with the
    timestamp of the write. *)
Theorem entry_survives_reload h1 h2 w k p calls :
  dbPromise w = None ->
  available h1 w -> no_fault h1 -> cloneable p = true ->
  forallb (fun c => negb (touches_key k c)) calls = true ->
  opens h2 -> no_fault h2 ->
  let w1 := run calls (snd (cacheEmergencyData h1 k p w)) in
  fst (getCachedEmergencyData h2 k (reload w1))
    = Fulfilled (Some (p, clock w + Z.of_N (open_latency h1))).
Proof.
  intros Hnone Ha Hf1 Hp Hcalls Ho Hf2 w1.
  destruct (put_ok h1 w k p Ha Hf1 Hp) as (_ & Hrec & _).
  assert (Hready : ready w1).
  { apply run_ready. exact (first_call_ready h1 (Put k p) w Hnone Ha). }
  destruct (get_ok h2 (reload w1) k (reload_available h2 w1 Hready Ho) Hf2)
    as (Hget & _).
  rewrite Hget.
  change (records STORE_NAME (reload w1)) with (records STORE_NAME w1).
  unfold w1. rewrite (run_untouched k calls _ Hcalls), Hrec, find_put.
  reflexivity.
Qed.

Lemma entry_survives_reload_witness :
  dbPromise (fresh_world 1700000000000) = None /\
  available (browser 2 3) (fresh_world 1700000000000) /\
  no_fault (browser 2 3) /\ cloneable card = true /\
  opens (browser 1 1) /\ no_fault (browser 1 1) /\
  fst (getCachedEmergencyData (browser 1 1) "ice_card_ABC123"
         (reload
            (run [(browser 1 1, Put "ice_card_XYZ789" JSNull);
                  (connection_closing, Delete "ice_card_XYZ789")]
               (snd (cacheEmergencyData (browser 2 3) "ice_card_ABC123" card
                       (fresh_world 1700000000000))))))
    = Fulfilled (Some (card, 1700000000002)).
Proof.
  assert (Ha : available (browser 2 3) (fresh_world 1700000000000)).
  { split; [eexists; reflexivity | reflexivity]. }
  assert (Hf1 : no_fault (browser 2 3)) by (split; reflexivity).
  assert (Hf2 : no_fault (browser 1 1)) by (split; reflexivity).
  assert (Ho : opens (browser 1 1)) by (repeat split).
  repeat (split; [assumption || reflexivity|]).
  exact (entry_survives_reload (browser 2 3) (browser 1 1)
           (fresh_world 1700000000000) "ice_card_ABC123" card
           [(browser 1 1, Put "ice_card_XYZ789" JSNull);
            (connection_closing, Delete "ice_card_XYZ789")]
           eq_refl Ha Hf1 eq_refl eq_refl Ho Hf2).
Defined.

(** X6.  The database is opened at most once per page: the first call,
    whatever it is, settles [dbPromise], and after any further calls in
    any hosts [openDB] still returns that same settled promise and leaves
    the state alone. *)
Theorem initialisation_happens_once h o calls h' w :
  let w' := run calls (step (h, o) w) in
  dbPromise w' = Some (fst (openDB h w)) /\
  openDB h' w' = (fst (openDB h w), w').
Proof.
  intros w'.
  assert (Hp : dbPromise w' = Some (fst (openDB h w))).
  { apply run_dbPromise. apply (step_facts h o w). }
  split; [exact Hp | now apply openDB_memoized].
Qed.

(** X7.  Only a failure to open the database is logged.  A call appends
    one line, its own message with the error of [openDB], when [openDB]
    rejects; otherwise, failing or not, it leaves the console as it was. *)
Theorem only_open_failures_are_logged h o w :
  console (step (h, o) w) =
  match fst (openDB h w) with
  | Rejected e => (console w ++ [(log_message o, e)])%list
  | Fulfilled _ => console w
  end.
Proof. apply step_console. Qed.

(** * The page *)

Lemma openDB_elapse h ms w :
  openDB h (elapse ms w) = (fst (openDB h w), elapse ms (snd (openDB h w))).
Proof.
  unfold openDB.
  change (dbPromise (elapse ms w)) with (dbPromise w).
  destruct (dbPromise w); [reflexivity|].
  destruct (negb (window_defined h) || negb (window_indexedDB h)); [reflexivity|].
  unfold indexedDB_open.
  destruct (open_onerror h); [reflexivity|].
  change (disk (elapse ms w)) with (disk w).
  destruct (DB_VERSION <? version (disk w))%N; [reflexivity|].
  destruct (version (disk w) <? DB_VERSION)%N; reflexivity.
Qed.

Lemma available_elapse h ms w : available h w -> available h (elapse ms w).
Proof.
  unfold available. rewrite openDB_elapse. simpl. auto.
Qed.

Lemma or_else_nonempty a b : b <> "" -> String.eqb (or_else a b) "" = false.
Proof.
  intros Hb. unfold or_else. destruct (String.eqb a "") eqn:E; [|exact E].
  now apply String.eqb_neq.
Qed.

Lemma get_absent h k w :
  find (has_key k) (records STORE_NAME w) = None ->
  records STORE_NAME (snd (getCachedEmergencyData h k w)) = records STORE_NAME w /\
  (fst (getCachedEmergencyData h k w) = Fulfilled None \/
   exists e, fst (getCachedEmergencyData h k w) = Rejected e).
Proof.
  intros Habs. rewrite getCachedEmergencyData_eq. open_call h w; [|simpl; auto].
  destruct (transaction_throws h); simpl; [eauto|].
  destruct (objectStoreNames_contains (disk w1) STORE_NAME); simpl; [|eauto].
  destruct (request_onerror h); simpl; [eauto|].
  rewrite Hrecords, Habs. auto.
Qed.

Lemma put_rejected h k p w e :
  rejection (fst (cacheEmergencyData h k p w)) = Some e ->
  fst (cacheEmergencyData h k p w) = Rejected e /\
  records STORE_NAME (snd (cacheEmergencyData h k p w)) = records STORE_NAME w.
Proof.
  intros Hr. split.
  - destruct (fst (cacheEmergencyData h k p w)); [discriminate|].
    simpl in Hr. now injection Hr as ->.
  - exact (proj1 (step_rejected (h, Put k p) w e Hr)).
Qed.

Lemma loadCard_fetch_failed dm net hw hr code s w err :
  response net = Rejected err ->
  loadCard dm net hw hr code (s, w) =
  let reached :=
    loadCard_catch dm hr ("ice_card_" ++ code) err
      (setError "" (setLoading true s), elapse (fetch_latency net) w) in
  (setLoading false (fst reached), snd reached).
Proof. intros Hresp. unfold loadCard. cbn [fst snd]. now rewrite Hresp. Qed.

Lemma loadCard_fetched dm net hw hr code s w data :
  response net = Fulfilled data ->
  truthy (own_property "requires_pin" data) = false ->
  loadCard dm net hw hr code (s, w) =
  let s2 :=
    setIsUsingCache false
      (setCardData (JSObject data) (setError "" (setLoading true s))) in
  let put :=
    cacheEmergencyData hw ("ice_card_" ++ code) (JSObject data)
      (elapse (fetch_latency net) w) in
  let reached :=
    match fst put with
    | Fulfilled _ => (s2, snd put)
    | Rejected err => loadCard_catch dm hr ("ice_card_" ++ code) err (s2, snd put)
    end in
  (setLoading false (fst reached), snd reached).
Proof.
  intros Hresp Hpin. unfold loadCard. cbn [fst snd]. rewrite Hresp, Hpin.
  cbv zeta.
  destruct (cacheEmergencyData hw ("ice_card_" ++ code) (JSObject data)
              (elapse (fetch_latency net) w)) as [[u|e] w2]; reflexivity.
Qed.

(** The [catch] block when the read returns an entry, and when it returns
    none or fails. *)
Lemma loadCard_catch_hit dm hr k err s w e flag :
  available hr w -> no_fault hr ->
  find (has_key k) (records STORE_NAME w) = Some e ->
  property "requires_pin" (data e) = Some flag -> truthy flag = false ->
  fst (loadCard_catch dm hr k err (s, w)) =
  setError ""
    (setIsUsingCache true
       (setCacheTimestamp (Some (timestamp e)) (setCardData (data e) s))).
Proof.
  intros Ha Hf Hfind Hflag Hfalsy. unfold loadCard_catch. cbn [fst snd].
  destruct (get_ok hr w k Ha Hf) as (Hget & _).
  destruct (getCachedEmergencyData hr k w) as [cached w3]. cbn [fst] in Hget.
  subst cached. rewrite Hfind, Hflag, Hfalsy. reflexivity.
Qed.

Lemma loadCard_catch_miss dm hr k err s w :
  find (has_key k) (records STORE_NAME w) = None ->
  fst (loadCard_catch dm hr k err (s, w)) =
    setError (or_else (message dm err) "Emergency card not found") s /\
  records STORE_NAME (snd (loadCard_catch dm hr k err (s, w))) = records STORE_NAME w.
Proof.
  intros Habs. unfold loadCard_catch. cbn [fst snd].
  destruct (get_absent hr k w Habs) as (Hrec & Hres).
  destruct (getCachedEmergencyData hr k w) as [cached w3]. cbn [fst snd] in *.
  destruct Hres as [->|[e ->]]; auto.
Qed.

(** X8.  Offline fallback.  When the fetch fails and the cache holds,
    under the key of the access code, a card whose [requires_pin] is not
    set, and the read meets no failure, [loadCard] ends with that card as
    [cardData], its capture time as [cacheTimestamp], [isUsingCache] set,
    no error and no spinner; the page shows the card under a banner that
    says it is cached (or that the browser is offline) and how old it
    is. *)
Theorem offline_fallback_shows_cached_card dm loc net hw hr code s w err e flag now :
  response net = Rejected err ->
  available hr w -> no_fault hr ->
  find (has_key ("ice_card_" ++ code)) (records STORE_NAME w) = Some e ->
  property "requires_pin" (data e) = Some flag -> truthy flag = false ->
  truthy (data e) = true ->
  let s' := fst (loadCard dm net hw hr code (s, w)) in
  cardData s' = data e /\
  cacheTimestamp s' = Some (timestamp e) /\
  isUsingCache s' = true /\ error s' = "" /\ loading s' = false /\
  screen loc now s' =
    CardView (data e)
      (Some {| banner_title :=
                 if negb (isOnline s) then "You are offline" else "Viewing cached data";
               banner_updated :=
                 if timestamp e =? 0 then BareZero
                 else LastUpdated (formatCacheTimestamp loc now (timestamp e)) |}).
Proof.
  intros Hresp Ha Hf Hfind Hflag Hfalsy Hcard s'.
  unfold s'. rewrite (loadCard_fetch_failed dm net hw hr code s w err Hresp).
  cbv zeta. cbn [fst].
  rewrite (loadCard_catch_hit dm hr _ err _ _ e flag
             (available_elapse hr _ w Ha) Hf Hfind Hflag Hfalsy).
  repeat split.
  unfold screen; simpl. rewrite Hcard, andb_false_r, orb_true_r. reflexivity.
Qed.

Lemma offline_fallback_shows_cached_card_witness :
  available (browser 1 1) (returning_world 1700000000000) /\
  no_fault (browser 1 1) /\
  screen (fun _ => "11/14/2023") 1700000100000
    (fst (loadCard (fun _ => "")
            {| response := Rejected (Error "Failed to fetch"); fetch_latency := 30 |}
            (browser 1 1) (browser 1 1) "ABC123"
            (initial_state, returning_world 1700000000000)))
  = CardView card
      (Some {| banner_title := "Viewing cached data";
               banner_updated := LastUpdated "1 minute ago" |}).
Proof.
  assert (Ha : available (browser 1 1) (returning_world 1700000000000)).
  { split; [eexists; reflexivity | reflexivity]. }
  assert (Hf : no_fault (browser 1 1)) by (split; reflexivity).
  repeat (split; [assumption|]).
  exact (proj2 (proj2 (proj2 (proj2 (proj2
           (offline_fallback_shows_cached_card (fun _ => "") (fun _ => "11/14/2023")
              {| response := Rejected (Error "Failed to fetch"); fetch_latency := 30 |}
              (browser 1 1) (browser 1 1) "ABC123" initial_state
              (returning_world 1700000000000) (Error "Failed to fetch")
              {| key := "ice_card_ABC123"; data := card;
                 timestamp := 1700000000000 - 5000 |}
              (JSBoolean false) 1700000100000
              eq_refl Ha Hf eq_refl eq_refl eq_refl eq_refl)))))).
Defined.

Lemma loadCard_catch_world dm hr k err s w :
  snd (loadCard_catch dm hr k err (s, w)) = step (hr, Get k) w.
Proof.
  unfold loadCard_catch. cbn [fst snd step].
  destruct (getCachedEmergencyData hr k w) as [[[[d t]|]|e] w3];
    cbn [snd]; try reflexivity.
  destruct (property "requires_pin" d) as [flag|]; [|reflexivity].
  destruct (negb (truthy flag)); reflexivity.
Qed.

(** X9.  When the fetch fails and no entry is cached under the key of
    the access code, then whatever the host of the read does, [loadCard]
    ends with the message of the fetch error (or "Emergency card not
    found" when it has none), touches neither the card shown nor the
    cache flags nor the records, and stops the spinner; unless a PIN
    prompt is pending the page shows "Card Not Found" with that
    message. *)
Theorem fetch_failure_without_cache_reports_error dm loc net hw hr code s w err now :
  response net = Rejected err ->
  find (has_key ("ice_card_" ++ code)) (records STORE_NAME w) = None ->
  let s' := fst (loadCard dm net hw hr code (s, w)) in
  let w' := snd (loadCard dm net hw hr code (s, w)) in
  error s' = or_else (message dm err) "Emergency card not found" /\
  cardData s' = cardData s /\ isUsingCache s' = isUsingCache s /\
  cacheTimestamp s' = cacheTimestamp s /\ loading s' = false /\
  records STORE_NAME w' = records STORE_NAME w /\
  (requiresPin s = false -> screen loc now s' = CardNotFound (error s')).
Proof.
  intros Hresp Habs s' w'. unfold s', w'.
  rewrite (loadCard_fetch_failed dm net hw hr code s w err Hresp).
  cbv zeta. cbn [fst snd].
  destruct (loadCard_catch_miss dm hr ("ice_card_" ++ code) err
              (setError "" (setLoading true s)) (elapse (fetch_latency net) w) Habs)
    as (Hst & Hrec).
  rewrite Hst, Hrec. repeat split.
  intros Hpin. unfold screen; simpl. rewrite Hpin.
  rewrite or_else_nonempty by discriminate. reflexivity.
Qed.

Lemma fetch_failure_without_cache_reports_error_witness :
  find (has_key ("ice_card_" ++ "XYZ789"))
    (records STORE_NAME (returning_world 1700000000000)) = None /\
  screen (fun _ => "11/14/2023") 1700000100000
    (fst (loadCard (fun _ => "")
            {| response := Rejected (Error ""); fetch_latency := 30 |}
            (browser 1 1) quota_exceeded "XYZ789"
            (initial_state, returning_world 1700000000000)))
  = CardNotFound "Emergency card not found".
Proof.
  split; [reflexivity|].
  exact (proj2 (proj2 (proj2 (proj2 (proj2 (proj2
           (fetch_failure_without_cache_reports_error (fun _ => "")
              (fun _ => "11/14/2023")
              {| response := Rejected (Error ""); fetch_latency := 30 |}
              (browser 1 1) quota_exceeded "XYZ789" initial_state
              (returning_world 1700000000000) (Error "") 1700000100000
              eq_refl eq_refl)))))) eq_refl).
Defined.

(** X10.  [loadCard] writes nothing but the entry of its own key: in
    every host and for every answer of the network, the entry of any
    other key is as before; and when the fetch fails or the answer asks
    for a PIN, all records are as before. *)
Theorem loadCard_writes_only_its_entry dm net hw hr code s w :
  let w' := snd (loadCard dm net hw hr code (s, w)) in
  (forall k, k <> "ice_card_" ++ code ->
             find (has_key k) (records STORE_NAME w')
               = find (has_key k) (records STORE_NAME w)) /\
  (match response net with
   | Rejected _ => True
   | Fulfilled data => truthy (own_property "requires_pin" data) = true
   end -> records STORE_NAME w' = records STORE_NAME w).
Proof.
  intros w'. unfold w'.
  assert (Hget : forall err s0 w0,
             records STORE_NAME
               (snd (loadCard_catch dm hr ("ice_card_" ++ code) err (s0, w0)))
             = records STORE_NAME w0).
  { intros err s0 w0. rewrite loadCard_catch_world.
    apply (run_reads [(hr, Get ("ice_card_" ++ code))] w0). reflexivity. }
  destruct (response net) as [data|err] eqn:Hresp.
  - destruct (truthy (own_property "requires_pin" data)) eqn:Hpin.
    + unfold loadCard. cbn [fst snd]. rewrite Hresp, Hpin. cbn [fst snd].
      split; reflexivity.
    + rewrite (loadCard_fetched dm net hw hr code s w data Hresp Hpin).
      cbv zeta. split; [|discriminate].
      intros k Hk.
      assert (Hput : find (has_key k)
                       (records STORE_NAME
                          (snd (cacheEmergencyData hw ("ice_card_" ++ code)
                                  (JSObject data) (elapse (fetch_latency net) w))))
                     = find (has_key k) (records STORE_NAME w)).
      { apply (step_untouched k (hw, Put ("ice_card_" ++ code) (JSObject data))
                 (elapse (fetch_latency net) w)).
        unfold touches_key; cbn [snd]. apply String.eqb_neq. congruence. }
      destruct (fst (cacheEmergencyData hw ("ice_card_" ++ code) (JSObject data)
                       (elapse (fetch_latency net) w))); cbn [fst snd].
      * exact Hput.
      * now rewrite Hget.
  - rewrite (loadCard_fetch_failed dm net hw hr code s w err Hresp).
    cbv zeta. cbn [snd]. rewrite Hget. split; reflexivity.
Qed.

(** X11.  An answer that asks for a PIN is not cached.  [loadCard] then
    makes no call of the cache at all (only time has passed), raises
    [requiresPin], keeps the holder's name and leaves the card shown as
    it was; with no card shown the page is the PIN prompt for that
    holder, without complaint. *)
Theorem pin_protected_answer_is_not_cached dm loc net hw hr code s w data now :
  response net = Fulfilled data ->
  truthy (own_property "requires_pin" data) = true ->
  let s' := fst (loadCard dm net hw hr code (s, w)) in
  snd (loadCard dm net hw hr code (s, w)) = elapse (fetch_latency net) w /\
  requiresPin s' = true /\
  holderName s' = own_property "holder_name" data /\
  cardData s' = cardData s /\
  (truthy (cardData s) = false ->
   screen loc now s' = PinEntry (own_property "holder_name" data) None).
Proof.
  intros Hresp Hpin s'. unfold s', loadCard. cbn [fst snd].
  rewrite Hresp, Hpin. cbn [fst snd]. repeat split.
  intros Hcard. unfold screen; simpl. now rewrite Hcard.
Qed.

Lemma pin_protected_answer_is_not_cached_witness :
  truthy (own_property "requires_pin"
            [("requires_pin", JSBoolean true); ("holder_name", JSString "A. Holder")])
    = true /\
  screen (fun _ => "11/14/2023") 1700000100000
    (fst (loadCard (fun _ => "")
            {| response :=
                 Fulfilled [("requires_pin", JSBoolean true);
                            ("holder_name", JSString "A. Holder")];
               fetch_latency := 30 |}
            (browser 1 1) (browser 1 1) "ABC123"
            (initial_state, fresh_world 1700000000000)))
  = PinEntry (JSString "A. Holder") None.
Proof.
  split; [reflexivity|].
  exact (proj2 (proj2 (proj2 (proj2
           (pin_protected_answer_is_not_cached (fun _ => "") (fun _ => "11/14/2023")
              {| response :=
                   Fulfilled [("requires_pin", JSBoolean true);
                              ("holder_name", JSString "A. Holder")];
                 fetch_latency := 30 |}
              (browser 1 1) (browser 1 1) "ABC123" initial_state
              (fresh_world 1700000000000)
              [("requires_pin", JSBoolean true); ("holder_name", JSString "A. Holder")]
              1700000100000 eq_refl eq_refl)))) eq_refl).
Defined.

(** X12.  A rejected cache write is handled as a failed load.  When the
    answer arrives without a PIN request but the write of the cache
    rejects, and no entry was cached under the key, [loadCard] ends with
    the fresh card in [cardData] and with the message of the cache error
    (or "Emergency card not found") in [error]; unless a PIN prompt is
    pending the page shows "Card Not Found", not the card. *)
Theorem rejected_cache_write_fails_the_load dm loc net hw hr code s w data e now :
  response net = Fulfilled data ->
  truthy (own_property "requires_pin" data) = false ->
  rejection (fst (cacheEmergencyData hw ("ice_card_" ++ code) (JSObject data)
                    (elapse (fetch_latency net) w))) = Some e ->
  find (has_key ("ice_card_" ++ code)) (records STORE_NAME w) = None ->
  let s' := fst (loadCard dm net hw hr code (s, w)) in
  cardData s' = JSObject data /\
  error s' = or_else (message dm e) "Emergency card not found" /\
  isUsingCache s' = false /\ loading s' = false /\
  (requiresPin s = false -> screen loc now s' = CardNotFound (error s')).
Proof.
  intros Hresp Hpin Hrej Habs s'. unfold s'.
  rewrite (loadCard_fetched dm net hw hr code s w data Hresp Hpin). cbv zeta.
  destruct (put_rejected hw _ _ _ e Hrej) as (Hput & Hrec).
  rewrite Hput. cbn [fst].
  destruct (loadCard_catch_miss dm hr ("ice_card_" ++ code) e
              (setIsUsingCache false
                 (setCardData (JSObject data) (setError "" (setLoading true s))))
              (snd (cacheEmergencyData hw ("ice_card_" ++ code) (JSObject data)
                      (elapse (fetch_latency net) w))))
    as (Hst & _).
  { rewrite Hrec. exact Habs. }
  rewrite Hst. repeat split.
  intros Hreq. unfold screen; simpl. rewrite Hreq.
  rewrite or_else_nonempty by discriminate. reflexivity.
Qed.

Lemma rejected_cache_write_fails_the_load_witness :
  rejection (fst (cacheEmergencyData quota_exceeded ("ice_card_" ++ "ABC123") card
                    (elapse 30 (fresh_world 1700000000000))))
    = Some (DOMException "QuotaExceededError") /\
  screen (fun _ => "11/14/2023") 1700000100000
    (fst (loadCard (fun _ => "The quota has been exceeded.")
            {| response :=
                 Fulfilled [("holder_name", JSString "A. Holder");
                            ("requires_pin", JSBoolean false)];
               fetch_latency := 30 |}
            quota_exceeded (browser 1 1) "ABC123"
            (initial_state, fresh_world 1700000000000)))
  = CardNotFound "The quota has been exceeded.".
Proof.
  split; [reflexivity|].
  exact (proj2 (proj2 (proj2 (proj2
           (rejected_cache_write_fails_the_load
              (fun _ => "The quota has been exceeded.") (fun _ => "11/14/2023")
              {| response :=
                   Fulfilled [("holder_name", JSString "A. Holder");
                              ("requires_pin", JSBoolean false)];
                 fetch_latency := 30 |}
              quota_exceeded (browser 1 1) "ABC123" initial_state
              (fresh_world 1700000000000)
              [("holder_name", JSString "A. Holder"); ("requires_pin", JSBoolean false)]
              (DOMException "QuotaExceededError") 1700000100000
              eq_refl eq_refl eq_refl eq_refl)))) eq_refl).
Defined.

(** X13.  When the answer arrives but the request of the cache write
    fires [onerror], and an older card without PIN flag is cached under
    the key, the read that follows returns the older card and [loadCard]
    ends showing it as cached data, with its old capture time, in place
    of the card just fetched. *)
Theorem rejected_cache_write_shows_older_card dm net hw hr code s w answer e0 old flag :
  response net = Fulfilled answer ->
  truthy (own_property "requires_pin" answer) = false ->
  available hw w -> transaction_throws hw = None ->
  cloneable (JSObject answer) = true -> request_onerror hw = Some e0 ->
  no_fault hr ->
  find (has_key ("ice_card_" ++ code)) (records STORE_NAME w) = Some old ->
  property "requires_pin" (data old) = Some flag -> truthy flag = false ->
  let s' := fst (loadCard dm net hw hr code (s, w)) in
  cardData s' = data old /\
  cacheTimestamp s' = Some (timestamp old) /\
  isUsingCache s' = true /\ error s' = "" /\ loading s' = false.
Proof.
  intros Hresp Hpin Ha Ht Hclone Hreq Hf Hfind Hflag Hfalsy s'. unfold s'.
  rewrite (loadCard_fetched dm net hw hr code s w answer Hresp Hpin). cbv zeta.
  pose proof (available_elapse hw (fetch_latency net) w Ha) as Ha1.
  assert (Hrej : rejection (fst (cacheEmergencyData hw ("ice_card_" ++ code)
                                   (JSObject answer) (elapse (fetch_latency net) w)))
                 = Some e0).
  { destruct (available_opened hw _ Ha1) as (db & w1 & E & _ & Hc1 & _).
    rewrite cacheEmergencyData_eq, E, Ht, Hc1, Hclone, Hreq. reflexivity. }
  destruct (put_rejected hw _ _ _ e0 Hrej) as (Hput & Hrec).
  rewrite Hput. cbn [fst].
  rewrite (loadCard_catch_hit dm hr ("ice_card_" ++ code) e0 _ _ old flag);
    auto.
  - apply connected_available.
    exact (available_step_connected hw
             (Put ("ice_card_" ++ code) (JSObject answer)) _ Ha1).
  - rewrite Hrec. exact Hfind.
Qed.

Lemma rejected_cache_write_shows_older_card_witness :
  available quota_exceeded (returning_world 1700000000000) /\
  no_fault (browser 1 1) /\
  cardData
    (fst (loadCard (fun _ => "")
            {| response :=
                 Fulfilled [("holder_name", JSString "B. Newer");
                            ("requires_pin", JSBoolean false)];
               fetch_latency := 30 |}
            quota_exceeded (browser 1 1) "ABC123"
            (initial_state, returning_world 1700000000000)))
  = card.
Proof.
  assert (Ha : available quota_exceeded (returning_world 1700000000000)).
  { split; [eexists; reflexivity | reflexivity]. }
  assert (Hf : no_fault (browser 1 1)) by (split; reflexivity).
  repeat (split; [assumption|]).
  exact (proj1
           (rejected_cache_write_shows_older_card (fun _ => "")
              {| response :=
                   Fulfilled [("holder_name", JSString "B. Newer");
                              ("requires_pin", JSBoolean false)];
                 fetch_latency := 30 |}
              quota_exceeded (browser 1 1) "ABC123" initial_state
              (returning_world 1700000000000)
              [("holder_name", JSString "B. Newer"); ("requires_pin", JSBoolean false)]
              (DOMException "QuotaExceededError")
              {| key := "ice_card_ABC123"; data := card;
                 timestamp := 1700000000000 - 5000 |}
              (JSBoolean false)
              eq_refl eq_refl Ha eq_refl eq_refl eq_refl Hf eq_refl eq_refl eq_refl)).
Defined.

(** X14.  A visit online followed by a visit offline.  When a first
    [loadCard] fetches a card without PIN flag and caches it (store
    available, no failure, first call of its session), then after a
    reload a [loadCard] whose fetch fails, in a browser that opens the
    database and meets no failure, ends showing that same card as cached
    data, with a capture time between the start and the end of the first
    visit. *)
Theorem online_visit_then_offline_visit
    dm net1 net2 hw hr0 hw2 hr code s0 s w answer err :
  dbPromise w = None ->
  response net1 = Fulfilled answer ->
  truthy (own_property "requires_pin" answer) = false ->
  available hw w -> no_fault hw -> cloneable (JSObject answer) = true ->
  response net2 = Rejected err -> opens hr -> no_fault hr ->
  let w1 := snd (loadCard dm net1 hw hr0 code (s0, w)) in
  let s2 := fst (loadCard dm net2 hw2 hr code (s, reload w1)) in
  exists t,
    cardData s2 = JSObject answer /\ cacheTimestamp s2 = Some t /\
    clock w <= t <= clock w1 /\
    isUsingCache s2 = true /\ error s2 = "" /\ loading s2 = false.
Proof.
  intros Hnone Hresp1 Hpin Ha Hf Hclone Hresp2 Ho Hfr w1 s2.
  pose proof (available_elapse hw (fetch_latency net1) w Ha) as Ha1.
  destruct (put_ok hw (elapse (fetch_latency net1) w) ("ice_card_" ++ code)
              (JSObject answer) Ha1 Hf Hclone) as (Hput & Hrec & Hclock & _ & _).
  assert (Hw1 : w1 = snd (cacheEmergencyData hw ("ice_card_" ++ code) (JSObject answer)
                            (elapse (fetch_latency net1) w))).
  { unfold w1. rewrite (loadCard_fetched dm net1 hw hr0 code s0 w answer Hresp1 Hpin).
    cbv zeta. rewrite Hput. reflexivity. }
  assert (Hready : ready w1).
  { rewrite Hw1.
    exact (first_call_ready hw (Put ("ice_card_" ++ code) (JSObject answer))
             (elapse (fetch_latency net1) w) Hnone Ha1). }
  exists (clock w + Z.of_N (fetch_latency net1) + Z.of_N (open_latency hw)).
  unfold s2. rewrite (loadCard_fetch_failed dm net2 hw2 hr code s (reload w1) err Hresp2).
  cbv zeta. cbn [fst].
  rewrite (loadCard_catch_hit dm hr ("ice_card_" ++ code) err _ _
             {| key := "ice_card_" ++ code; data := JSObject answer;
                timestamp := clock w + Z.of_N (fetch_latency net1)
                             + Z.of_N (open_latency hw) |}
             (own_property "requires_pin" answer)).
  - repeat split; try reflexivity; try rewrite Hw1, Hclock; simpl; lia.
  - apply available_elapse, reload_available; assumption.
  - exact Hfr.
  - change (records STORE_NAME (elapse (fetch_latency net2) (reload w1)))
      with (records STORE_NAME w1).
    rewrite Hw1, Hrec. apply find_put.
  - reflexivity.
  - exact Hpin.
Qed.

Lemma online_visit_then_offline_visit_witness :
  dbPromise (fresh_world 1700000000000) = None /\
  available (browser 2 3) (fresh_world 1700000000000) /\
  no_fault (browser 2 3) /\ opens (browser 1 1) /\ no_fault (browser 1 1) /\
  cardData
    (fst (loadCard (fun _ => "")
            {| response := Rejected (Error "Failed to fetch"); fetch_latency := 9 |}
            (browser 1 1) (browser 1 1) "ABC123"
            (initial_state,
             reload
               (snd (loadCard (fun _ => "")
                       {| response :=
                            Fulfilled [("holder_name", JSString "A. Holder");
                                       ("requires_pin", JSBoolean false)];
                          fetch_latency := 40 |}
                       (browser 2 3) (browser 2 3) "ABC123"
                       (initial_state, fresh_world 1700000000000))))))
  = card.
Proof.
  assert (Ha : available (browser 2 3) (fresh_world 1700000000000)).
  { split; [eexists; reflexivity | reflexivity]. }
  assert (Hf1 : no_fault (browser 2 3)) by (split; reflexivity).
  assert (Hf2 : no_fault (browser 1 1)) by (split; reflexivity).
  assert (Ho : opens (browser 1 1)) by (repeat split).
  repeat (split; [assumption || reflexivity|]).
  destruct (online_visit_then_offline_visit (fun _ => "")
              {| response :=
                   Fulfilled [("holder_name", JSString "A. Holder");
                              ("requires_pin", JSBoolean false)];
                 fetch_latency := 40 |}
              {| response := Rejected (Error "Failed to fetch"); fetch_latency := 9 |}
              (browser 2 3) (browser 2 3) (browser 1 1) (browser 1 1) "ABC123"
              initial_state initial_state (fresh_world 1700000000000)
              [("holder_name", JSString "A. Holder"); ("requires_pin", JSBoolean false)]
              (Error "Failed to fetch")
              eq_refl eq_refl eq_refl Ha Hf1 eq_refl eq_refl Ho Hf2)
    as (t & Hcard & _).
  exact Hcard.
Defined.

Lemma handlePinSubmit_verified dm net hw code s w answer :
  response net = Fulfilled answer ->
  handlePinSubmit dm net hw code (s, w) =
  let s2 :=
    setIsUsingCache false
      (setRequiresPin false
         (setCardData (JSObject answer) (setError "" (setLoading true s)))) in
  let put :=
    cacheEmergencyData hw ("ice_card_" ++ code) (JSObject answer)
      (elapse (fetch_latency net) w) in
  (setLoading false
     (match fst put with
      | Fulfilled _ => s2
      | Rejected err => setError (or_else (message dm err) "Incorrect PIN") s2
      end),
   snd put).
Proof.
  intros Hresp. unfold handlePinSubmit. cbn [fst snd]. rewrite Hresp. cbv zeta.
  destruct (cacheEmergencyData hw ("ice_card_" ++ code) (JSObject answer)
              (elapse (fetch_latency net) w)) as [[u|e] w2]; reflexivity.
Qed.

(** X15.  A verified card is shown and cached.  When the PIN check
    answers with the card, the store is available and the write meets no
    failure, [handlePinSubmit] ends with the card shown, the PIN prompt
    and the cache flag lowered, no error and no spinner, and the cache
    holds, under the key of the access code, that card stamped with the
    clock read during the write; online, the page is the card without
    banner. *)
Theorem verified_card_is_shown_and_cached dm loc net hw code s w answer now :
  response net = Fulfilled answer ->
  available hw w -> no_fault hw -> cloneable (JSObject answer) = true ->
  let s' := fst (handlePinSubmit dm net hw code (s, w)) in
  let w' := snd (handlePinSubmit dm net hw code (s, w)) in
  cardData s' = JSObject answer /\ requiresPin s' = false /\
  isUsingCache s' = false /\ error s' = "" /\ loading s' = false /\
  find (has_key ("ice_card_" ++ code)) (records STORE_NAME w')
    = Some {| key := "ice_card_" ++ code; data := JSObject answer;
              timestamp := clock w + Z.of_N (fetch_latency net)
                           + Z.of_N (open_latency hw) |} /\
  (isOnline s = true -> screen loc now s' = CardView (JSObject answer) None).
Proof.
  intros Hresp Ha Hf Hclone s' w'. unfold s', w'.
  rewrite (handlePinSubmit_verified dm net hw code s w answer Hresp). cbv zeta.
  destruct (put_ok hw (elapse (fetch_latency net) w) ("ice_card_" ++ code)
              (JSObject answer) (available_elapse hw _ w Ha) Hf Hclone)
    as (Hput & Hrec & _).
  rewrite Hput. cbn [fst snd]. repeat split.
  - rewrite Hrec. apply find_put.
  - intros Hon. unfold screen; simpl. now rewrite Hon.
Qed.

Lemma verified_card_is_shown_and_cached_witness :
  available (browser 2 3) (fresh_world 1700000000000) /\
  no_fault (browser 2 3) /\
  find (has_key "ice_card_ABC123")
    (records STORE_NAME
       (snd (handlePinSubmit (fun _ => "")
               {| response := Fulfilled [("holder_name", JSString "A. Holder")];
                  fetch_latency := 40 |}
               (browser 2 3) "ABC123" (initial_state, fresh_world 1700000000000))))
  = Some {| key := "ice_card_ABC123";
            data := JSObject [("holder_name", JSString "A. Holder")];
            timestamp := 1700000000042 |}.
Proof.
  assert (Ha : available (browser 2 3) (fresh_world 1700000000000)).
  { split; [eexists; reflexivity | reflexivity]. }
  assert (Hf : no_fault (browser 2 3)) by (split; reflexivity).
  repeat (split; [assumption || reflexivity|]).
  exact (proj1 (proj2 (proj2 (proj2 (proj2 (proj2
           (verified_card_is_shown_and_cached (fun _ => "") (fun _ => "11/14/2023")
              {| response := Fulfilled [("holder_name", JSString "A. Holder")];
                 fetch_latency := 40 |}
              (browser 2 3) "ABC123" initial_state (fresh_world 1700000000000)
              [("holder_name", JSString "A. Holder")] 0
              eq_refl Ha Hf eq_refl))))))).
Defined.

(** X16.  A refused PIN leaves the prompt up.  When the PIN check fails,
    [handlePinSubmit] makes no call of the cache (only time has passed),
    keeps the card shown and the PIN flag as they were and sets the
    message of the error (or "Incorrect PIN"); with the prompt pending
    and no card shown, the page is the PIN prompt again, with that
    complaint. *)
Theorem refused_pin_keeps_the_prompt dm loc net hw code s w err now :
  response net = Rejected err ->
  let s' := fst (handlePinSubmit dm net hw code (s, w)) in
  snd (handlePinSubmit dm net hw code (s, w)) = elapse (fetch_latency net) w /\
  error s' = or_else (message dm err) "Incorrect PIN" /\
  cardData s' = cardData s /\ requiresPin s' = requiresPin s /\
  loading s' = false /\
  (requiresPin s = true -> truthy (cardData s) = false ->
   screen loc now s' = PinEntry (holderName s) (Some (error s'))).
Proof.
  intros Hresp s'. unfold s', handlePinSubmit. cbn [fst snd]. rewrite Hresp.
  cbn [fst snd]. repeat split.
  intros Hreq Hcard. unfold screen; simpl. rewrite Hreq, Hcard.
  rewrite andb_false_r. simpl.
  now rewrite or_else_nonempty by discriminate.
Qed.

Lemma refused_pin_keeps_the_prompt_witness :
  screen (fun _ => "11/14/2023") 1700000100000
    (fst (handlePinSubmit (fun _ => "")
            {| response := Rejected (Error ""); fetch_latency := 40 |}
            (browser 2 3) "ABC123"
            (setHolderName (JSString "A. Holder")
               (setRequiresPin true (setLoading false initial_state)),
             fresh_world 1700000000000)))
  = PinEntry (JSString "A. Holder") (Some "Incorrect PIN").
Proof.
  exact (proj2 (proj2 (proj2 (proj2 (proj2
           (refused_pin_keeps_the_prompt (fun _ => "") (fun _ => "11/14/2023")
              {| response := Rejected (Error ""); fetch_latency := 40 |}
              (browser 2 3) "ABC123"
              (setHolderName (JSString "A. Holder")
                 (setRequiresPin true (setLoading false initial_state)))
              (fresh_world 1700000000000) (Error "") 1700000100000 eq_refl)))))
           eq_refl eq_refl).
Defined.

(** X17.  A rejected cache write after an accepted PIN is reported as a
    PIN failure.  When the PIN check answers with the card but the write
    of the cache rejects, [handlePinSubmit] ends with the card in
    [cardData] and the prompt lowered, yet with the message of the cache
    error (or "Incorrect PIN") in [error]; the page shows the error
    screen with that message, not the card, and nothing was stored. *)
Theorem rejected_cache_write_fails_the_pin dm loc net hw code s w answer e now :
  response net = Fulfilled answer ->
  rejection (fst (cacheEmergencyData hw ("ice_card_" ++ code) (JSObject answer)
                    (elapse (fetch_latency net) w))) = Some e ->
  let s' := fst (handlePinSubmit dm net hw code (s, w)) in
  let w' := snd (handlePinSubmit dm net hw code (s, w)) in
  cardData s' = JSObject answer /\ requiresPin s' = false /\
  error s' = or_else (message dm e) "Incorrect PIN" /\
  screen loc now s' = CardNotFound (or_else (message dm e) "Incorrect PIN") /\
  records STORE_NAME w' = records STORE_NAME w.
Proof.
  intros Hresp Hrej s' w'. unfold s', w'.
  rewrite (handlePinSubmit_verified dm net hw code s w answer Hresp). cbv zeta.
  destruct (put_rejected hw _ _ _ e Hrej) as (Hput & Hrec).
  rewrite Hput. cbn [fst snd]. repeat split; [|exact Hrec].
  unfold screen; simpl. now rewrite or_else_nonempty by discriminate.
Qed.

Lemma rejected_cache_write_fails_the_pin_witness :
  rejection (fst (cacheEmergencyData quota_exceeded ("ice_card_" ++ "ABC123") card
                    (elapse 40 (fresh_world 1700000000000))))
    = Some (DOMException "QuotaExceededError") /\
  screen (fun _ => "11/14/2023") 1700000100000
    (fst (handlePinSubmit (fun _ => "")
            {| response :=
                 Fulfilled [("holder_name", JSString "A. Holder");
                            ("requires_pin", JSBoolean false)];
               fetch_latency := 40 |}
            quota_exceeded "ABC123" (initial_state, fresh_world 1700000000000)))
  = CardNotFound "Incorrect PIN".
Proof.
  split; [reflexivity|].
  exact (proj1 (proj2 (proj2 (proj2
           (rejected_cache_write_fails_the_pin (fun _ => "") (fun _ => "11/14/2023")
              {| response :=
                   Fulfilled [("holder_name", JSString "A. Holder");
                              ("requires_pin", JSBoolean false)];
                 fetch_latency := 40 |}
              quota_exceeded "ABC123" initial_state (fresh_world 1700000000000)
              [("holder_name", JSString "A. Holder"); ("requires_pin", JSBoolean false)]
              (DOMException "QuotaExceededError") 1700000100000
              eq_refl eq_refl))))).
Defined.

(** * Telephone links *)

Lemma formatPhone_all_dialable s : all_chars dialable (formatPhone s) = true.
Proof.
  induction s as [|c s IH]; simpl; [reflexivity|].
  destruct (dialable c) eqn:E; simpl; [now rewrite E | exact IH].
Qed.

Lemma formatPhone_clean s : all_chars dialable s = true -> formatPhone s = s.
Proof.
  induction s as [|c s IH]; simpl; [reflexivity|].
  intros H. apply andb_true_iff in H. destruct H as [Hc Hs].
  now rewrite Hc, IH.
Qed.

(** X18.  [formatPhone] returns only digits and plus signs, and applying
    it again changes nothing. *)
Theorem formatPhone_is_dialable_and_idempotent phone :
  all_chars dialable (formatPhone phone) = true /\
  formatPhone (formatPhone phone) = formatPhone phone.
Proof.
  split; [apply formatPhone_all_dialable|].
  apply formatPhone_clean, formatPhone_all_dialable.
Qed.

(** X19.  [formatPhone] works character by character.  The result for
    a concatenation is the concatenation of the results; a character in
    the middle of a number is kept in its place when it is one of
    [0123456789+] and is dropped, with nothing put in its place,
    otherwise. *)
Theorem formatPhone_app a b c :
  formatPhone (a ++ b) = formatPhone a ++ formatPhone b /\
  formatPhone (a ++ String c b)
    = formatPhone a
        ++ (if existsb (Ascii.eqb c) (list_ascii_of_string "0123456789+")
            then String c (formatPhone b)
            else formatPhone b).
Proof.
  assert (Happ : forall x y, formatPhone (x ++ y) = formatPhone x ++ formatPhone y).
  { intros x y. induction x as [|d x IH]; simpl; [reflexivity|].
    destruct (dialable d); simpl; now rewrite IH. }
  split; [apply Happ|].
  rewrite Happ. f_equal.
  assert (Hd : dialable c
               = existsb (Ascii.eqb c) (list_ascii_of_string "0123456789+")).
  { destruct c as [[] [] [] [] [] [] [] []]; reflexivity. }
  cbn [formatPhone]. now rewrite Hd.
Qed.

(** X20.  [formatPhone] returns its argument unchanged exactly when the
    argument consists of digits and plus signs only. *)
Theorem formatPhone_fixed_iff_dialable phone :
  formatPhone phone = phone <-> all_chars dialable phone = true.
Proof.
  split.
  - intros H. rewrite <- H. apply formatPhone_all_dialable.
  - apply formatPhone_clean.
Qed.

Example formatPhone_examples :
  formatPhone "+1 (555) 123-4567" = "+15551234567" /\
  formatPhone "555.123.4567 ext. 89" = "555123456789" /\
  formatPhone "call me" = "" /\
  formatPhone "" = "".
Proof. repeat split. Qed.
